(** * go-mapbox: the base HTTP client and the tileset client

    A shallow embedding of package [base] (token injection, GET/POST,
    multipart upload, rate-limit and authorisation errors) and of package
    [tilesets] (endpoint URLs, upload, create, publish, job-status polling),
    followed by the properties the specification states about them.

    Everything the two packages call but do not define (the file system, the
    network, net/url, encoding/json) is an explicit environment: the
    functions below are deterministic in it, and the theorems hold for every
    environment. *)

From Stdlib Require Import ZArith Ascii.
From stdpp Require Import base tactics option list gmap strings sorting.

#[local] Set Warnings "-clear-no-such-hyp,-notation-for-abbreviation".

(** ** Go values shared by both packages *)

(** An error value made by a standard package (net/http, net/url, os, io,
    encoding/json, mime/multipart): the package and its message. *)
Record lib_error := LibErr { lib_pkg : string; lib_text : string }.

(** Modelled from the spec: the two values [ErrorAPILimitExceeded] and
    [ErrorAPIUnauthorized]. The file of package base that declares them is
    not among the sources; the spec calls them "two named sentinel errors",
    so they are two values of their own, distinct from every error made
    elsewhere. The other two constructors are the errors the sources make
    themselves and the errors they receive from a standard package. *)
Inductive error : Type :=
| ErrorAPILimitExceeded
| ErrorAPIUnauthorized
| errors_New (text : string)   (* errors.New(text), fmt.Errorf(text) *)
| FromLib (e : lib_error).     (* an err of a standard package, passed on as it is *)

Definition fmt_Errorf (text : string) : error := errors_New text.

Definition is_sentinel (e : error) : bool :=
  match e with
  | ErrorAPILimitExceeded | ErrorAPIUnauthorized => true
  | errors_New _ | FromLib _ => false
  end.

(** A Go result pair [(value, err)]; [None] is [nil]. *)
Definition result (A : Type) : Type := (option A * option error)%type.

(** What [json.Unmarshal(data, &target)] does, as encoding/json documents it:
    invalid JSON is rejected before anything is stored; the literal [null]
    is accepted and stores nothing in a struct, but sets a pointer to nil;
    a value of the wrong type for a field is skipped, the other fields are
    stored and the first such mismatch is returned as the error. *)
Inductive json_outcome (A : Type) : Type :=
| JsonValue (v : A)
| JsonNull
| JsonSyntaxError (e : lib_error)
| JsonTypeError (v : A) (e : lib_error).
Arguments JsonValue {A} v.
Arguments JsonNull {A}.
Arguments JsonSyntaxError {A} e.
Arguments JsonTypeError {A} v e.

(** [json.Unmarshal(data, p)] with [p] a pointer to a struct holding [target]. *)
Definition Unmarshal {A} (o : json_outcome A) (target : A) : A * option lib_error :=
  match o with
  | JsonValue v => (v, None)
  | JsonNull => (target, None)
  | JsonSyntaxError e => (target, Some e)
  | JsonTypeError v e => (v, Some e)
  end.

(** [json.Unmarshal(data, &p)] with [p] itself a pointer to a struct: the
    pointer variable is what may be overwritten. *)
Definition UnmarshalPtr {A} (o : json_outcome A) (target : option A)
  : option A * option lib_error :=
  match o with
  | JsonValue v => (Some v, None)
  | JsonNull => (None, None)
  | JsonSyntaxError e => (target, Some e)
  | JsonTypeError v e => (Some v, Some e)
  end.

(** ** HTTP messages *)

Inductive payload : Type :=
| NoBody
| Bytes (data : string)
| FormFile (field filename contents : string).

(** A request as the client hands it to [client.Do]: the string given to
    [http.NewRequest], and [RawQuery] when the client overwrites
    [request.URL.RawQuery] afterwards. *)
Record Request := {
  Method : string;
  URL : string;
  RawQuery : option string;
  ContentType : option string;
  Payload : payload
}.

(** A response: its status code and what [ioutil.ReadAll(response.Body)]
    gives, the bytes read and the error that stopped the read, if any. *)
Record Response := {
  StatusCode : Z;
  Body : string;
  BodyErr : option lib_error
}.

Definition ReadAll (r : Response) : string * option lib_error := (Body r, BodyErr r).

Definition StatusOK : Z := 200.
Definition StatusBadRequest : Z := 400.
Definition StatusUnauthorized : Z := 401.
Definition MethodGet : string := "GET".
Definition MethodPost : string := "POST".

(** ** net/url: query escaping and [Values.Encode] *)

Definition is_alnum (c : ascii) : bool :=
  let n := Ascii.N_of_ascii c in
  ((97 <=? n) && (n <=? 122) || (65 <=? n) && (n <=? 90) || (48 <=? n) && (n <=? 57))%N.

(** [shouldEscape(c, encodeQueryComponent)] *)
Definition shouldEscape (c : ascii) : bool :=
  if is_alnum c then false
  else match c with
       | "-" | "_" | "." | "~" => false
       | _ => true
       end%char.

Definition upperhex (n : N) : ascii :=
  match n with
  | 0 => "0" | 1 => "1" | 2 => "2" | 3 => "3" | 4 => "4" | 5 => "5"
  | 6 => "6" | 7 => "7" | 8 => "8" | 9 => "9" | 10 => "A" | 11 => "B"
  | 12 => "C" | 13 => "D" | 14 => "E" | _ => "F"
  end%N%char.

Fixpoint QueryEscape (s : string) : string :=
  match s with
  | EmptyString => EmptyString
  | String c rest =>
      if shouldEscape c then
        if Ascii.eqb c " " then String "+" (QueryEscape rest)
        else
          let n := Ascii.N_of_ascii c in
          String "%" (String (upperhex (N.shiftr n 4))
                        (String (upperhex (N.land n 15)) (QueryEscape rest)))
      else String c (QueryEscape rest)
  end.

(** [strings.Join] *)
Fixpoint Join (sep : string) (parts : list string) : string :=
  match parts with
  | [] => ""
  | [p] => p
  | p :: rest => p +:+ sep +:+ Join sep rest
  end.

(** [url.Values]: a map from a key to its list of values. *)
Notation Values := (gmap string (list string)).

(** [v.Set(key, value)] *)
Definition Values_Set (v : Values) (key value : string) : Values :=
  <[key := [value]]> v.

Definition sorted_keys (v : Values) : list string :=
  merge_sort String.le (elements (dom v)).

(** The [key=value] pairs of [v.Encode()], in order. *)
Definition Encode_pairs (v : Values) : list string :=
  k ← sorted_keys v;
  (fun x => QueryEscape k +:+ "=" +:+ QueryEscape x) <$> default [] (v !! k).

(** [v.Encode()] *)
Definition Encode (v : Values) : string := Join "&" (Encode_pairs v).

(** ** Effects: requests sent, lines printed, time slept *)

Inductive event : Type :=
| Sent (r : Request)            (* a round trip was made for r *)
| Printed (text : string)       (* fmt.Println, fmt.Printf *)
| Logged (e : lib_error)        (* the line log.Fatal writes *)
| Slept (nanoseconds : Z).      (* time.Sleep *)

(** The state a call threads: how many round trips were made so far and what
    happened, the newest event first. *)
Record State := { trips : nat; trace : list event }.

Definition start : State := {| trips := 0; trace := [] |}.

(** How a call ends. [OutOfFuel] is not an outcome of the Go program: it
    marks a loop that is still running when the model's step budget is
    used up. *)
Inductive outcome (A : Type) : Type :=
| Returns (a : A)
| Panics (why : string)
| Exits (code : Z)
| OutOfFuel.
Arguments Returns {A} a.
Arguments Panics {A} why.
Arguments Exits {A} code.
Arguments OutOfFuel {A}.

Definition M (A : Type) : Type := State -> outcome A * State.

Global Instance M_ret : MRet M := fun A a s => (Returns a, s).

Global Instance M_bind : MBind M := fun A B f m s =>
  match m s with
  | (Returns a, s') => f a s'
  | (Panics why, s') => (Panics why, s')
  | (Exits code, s') => (Exits code, s')
  | (OutOfFuel, s') => (OutOfFuel, s')
  end.

Definition emit (e : event) : M unit :=
  fun s => (Returns tt, {| trips := trips s; trace := e :: trace s |}).

Definition panic {A} (why : string) : M A := fun s => (Panics why, s).
Definition os_Exit {A} (code : Z) : M A := fun s => (Exits code, s).
Definition out_of_fuel {A} : M A := fun s => (OutOfFuel, s).

Definition nil_dereference : string :=
  "runtime error: invalid memory address or nil pointer dereference".

Definition newline : string := String (Ascii.ascii_of_N 10) "".
Definition fmt_Println (text : string) : M unit := emit (Printed (text +:+ newline)).
Definition fmt_Printf (text : string) : M unit := emit (Printed text).
Definition time_Second : Z := 1000000000.
Definition time_Sleep (d : Z) : M unit := emit (Slept d).

(** [log.Fatal(err)]: write the error, then [os.Exit(1)]. *)
Definition log_Fatal {A} (e : lib_error) : M A := emit (Logged e);; os_Exit 1.

(** The requests among some events, oldest first. *)
Definition requests (evs : list event) : list Request :=
  rev (omap (fun e => match e with Sent r => Some r | _ => None end) evs).

(** The durations slept among some events, oldest first. *)
Definition sleeps (evs : list event) : list Z :=
  rev (omap (fun e => match e with Slept d => Some d | _ => None end) evs).

(** ** Package base *)

Module base.

Definition BaseURL : string := "https://api.mapbox.com".
Definition statusRateLimitExceeded : Z := 429.

(** [type Base struct] *)
Record Base := { token : string; debug : bool }.

(** [type MapboxAPIMessage struct] *)
Record MapboxAPIMessage := { Message : string }.

Definition zero_MapboxAPIMessage : MapboxAPIMessage := {| Message := "" |}.

(** What package base calls and does not define. [RoundTrip n r] is the
    answer to the request [r] when it is the [n]-th round trip of the run. *)
Record Env := {
  os_Open : string -> lib_error + string;
  filepath_Base : string -> string;
  CreateFormFile : string -> string -> option lib_error;
  url_Parse : string -> option lib_error;
  RoundTrip : nat -> Request -> lib_error + Response;
  DumpRequest : Request -> string;
  DumpResponse : Response -> string;
  json_MapboxAPIMessage : string -> json_outcome MapboxAPIMessage
}.

(** [NewBase] *)
Definition NewBase (token : string) : result Base :=
  if decide (token = "") then (None, Some (errors_New "Mapbox API token not found"))
  else
    let b := {| token := ""; debug := false |} in
    let b := {| token := token; debug := debug b |} in
    (Some b, None).

(** [SetDebug]: the receiver after the call. *)
Definition SetDebug (b : Base) (debug : bool) : Base :=
  {| token := token b; debug := true |}.

Section client.
Variable W : Env.

(** [http.NewRequest(method, url, body)]: nil and an error when the URL
    does not parse. *)
Definition http_NewRequest (method url : string) (body : payload)
  : option Request * option lib_error :=
  match url_Parse W url with
  | Some err => (None, Some err)
  | None =>
      (Some {| Method := method; URL := url; RawQuery := None;
               ContentType := None; Payload := body |}, None)
  end.

(** [client.Do(request)]; on a nil request it dereferences [request.URL]. *)
Definition client_Do (request : option Request) : M (lib_error + Response) :=
  match request with
  | None => panic nil_dereference
  | Some r =>
      fun s => (Returns (RoundTrip W (trips s) r),
                {| trips := S (trips s); trace := Sent r :: trace s |})
  end.

(** [http.Get(url)] *)
Definition http_Get (url : string) : M (lib_error + Response) :=
  match http_NewRequest MethodGet url NoBody with
  | (_, Some err) => mret (inl err)
  | (request, None) => client_Do request
  end.

(** [SimpleGET] *)
Definition SimpleGET (b : Base) (url : string) : M (result string) :=
  let url := BaseURL +:+ "/" +:+ url +:+ "?access_token=" +:+ token b in
  r ← http_Get url;
  match r with
  | inl err => mret (None, Some (FromLib err))
  | inr response =>
      let '(body, _) := ReadAll response in
      mret (Some body, None)
  end.

(** [PostRequest]; [data] is [None] for a nil slice. *)
Definition PostRequest (b : Base) (postURL : string) (data : option string)
  : M (result string) :=
  let postURL := BaseURL +:+ "/" +:+ postURL +:+ "?access_token=" +:+ token b in
  let '(request, _) := http_NewRequest MethodPost postURL (Bytes (default "" data)) in
  request ←
    (if data is Some _ then
       match request with
       | None => panic nil_dereference
       | Some r =>
           mret (Some {| Method := Method r; URL := URL r; RawQuery := RawQuery r;
                         ContentType := Some "application/json";
                         Payload := Payload r |})
       end
     else mret request);
  r ← client_Do request;
  match r with
  | inl err => mret (None, Some (FromLib err))
  | inr response =>
      let '(body, _) := ReadAll response in
      mret (Some body, None)
  end.

(** [PostUploadFileRequest] *)
Definition PostUploadFileRequest (b : Base) (postURL file filetype : string)
  : M (result string) :=
  match os_Open W file with
  | inl err => mret (None, Some (FromLib err))
  | inr geoJSON =>
      let filename := filepath_Base W file in
      match CreateFormFile W filetype filename with
      | Some err => mret (None, Some (FromLib err))
      | None =>
          let body := FormFile filetype filename geoJSON in
          let postURL :=
            BaseURL +:+ "/" +:+ postURL +:+ "/?access_token=" +:+ token b in
          match http_NewRequest MethodPost postURL body with
          | (_, Some err) => mret (None, Some (FromLib err))
          | (None, None) => panic nil_dereference
          | (Some r, None) =>
              let request :=
                {| Method := Method r; URL := URL r; RawQuery := RawQuery r;
                   ContentType := Some "multipart/form-data";
                   Payload := Payload r |} in
              r ← client_Do (Some request);
              match r with
              | inl _ => panic nil_dereference   (* response.Body on a nil response *)
              | inr response =>
                  let '(resBody, err) := ReadAll response in
                  if decide (StatusCode response ≠ StatusOK) then
                    let '(apiMessage, messageErr) :=
                      Unmarshal (json_MapboxAPIMessage W resBody)
                                zero_MapboxAPIMessage in
                    match messageErr with
                    | None =>
                        mret (None, Some (fmt_Errorf ("api error: " +:+ Message apiMessage)))
                    | Some _ =>
                        mret (None, Some (fmt_Errorf "Bad Request (400) - no message"))
                    end
                  else
                    match err with
                    | Some err => mret (None, Some (FromLib err))
                    | None =>
                        fmt_Println resBody;;
                        mret (Some resBody, None)
                    end
              end
          end
      end
  end.

(** [QueryRequest]. The map behind [v] is updated in place; the map after
    the call comes first in the result. *)
Definition QueryRequest (b : Base) (query : string) (v : Values)
  : M (Values * result Response) :=
  let v := Values_Set v "access_token" (token b) in
  let url := BaseURL +:+ "/" +:+ query in
  (if debug b then fmt_Printf ("URL: " +:+ url +:+ newline) else mret tt);;
  match http_NewRequest MethodGet url NoBody with
  | (_, Some err) => mret (v, (None, Some (FromLib err)))
  | (None, None) => panic nil_dereference
  | (Some r, None) =>
      let request :=
        {| Method := Method r; URL := URL r; RawQuery := Some (Encode v);
           ContentType := ContentType r; Payload := Payload r |} in
      r ← client_Do (Some request);
      match r with
      | inl err => mret (v, (None, Some (FromLib err)))
      | inr resp =>
          (if debug b then
             fmt_Printf ("Request: " +:+ DumpRequest W request);;
             fmt_Printf ("Response: " +:+ DumpResponse W resp)
           else mret tt);;
          if decide (StatusCode resp = statusRateLimitExceeded) then
            mret (v, (None, Some ErrorAPILimitExceeded))
          else if decide (StatusCode resp = StatusUnauthorized) then
            mret (v, (None, Some ErrorAPIUnauthorized))
          else mret (v, (Some resp, None))
      end
  end.

(** [QueryBase]. [into_inst body] is what decoding [body] into the caller's
    [inst] gives; the result is [inst] after the call and the error. *)
Definition QueryBase {Inst : Type} (b : Base) (query : string) (v : Values)
    (inst : Inst) (into_inst : string -> json_outcome Inst)
  : M (Values * (Inst * option error)) :=
  '(v, (resp, err)) ← QueryRequest b query v;
  let rest (resp : option Response) : M (Values * (Inst * option error)) :=
    match resp with
    | None => panic nil_dereference     (* resp.Body on a nil response *)
    | Some resp =>
        let '(body, err) := ReadAll resp in
        match err with
        | Some err => mret (v, (inst, Some (FromLib err)))
        | None =>
            if decide (StatusCode resp = StatusBadRequest) then
              let '(apiMessage, messageErr) :=
                Unmarshal (json_MapboxAPIMessage W body) zero_MapboxAPIMessage in
              match messageErr with
              | None =>
                  mret (v, (inst, Some (fmt_Errorf ("api error: " +:+ Message apiMessage))))
              | Some _ =>
                  mret (v, (inst, Some (fmt_Errorf "Bad Request (400) - no message")))
              end
            else
              let '(inst, err) := Unmarshal (into_inst body) inst in
              match err with
              | Some err => mret (v, (inst, Some (FromLib err)))
              | None => mret (v, (inst, None))
              end
        end
    end in
  match err, resp with
  | Some e, None => mret (v, (inst, Some e))
  | Some e, Some r =>
      if decide (StatusCode r ≠ StatusBadRequest) then mret (v, (inst, Some e))
      else rest resp
  | None, _ => rest resp
  end.

(** [Query] *)
Definition Query {Inst : Type} (b : Base) (api version mode query : string)
    (v : Values) (inst : Inst) (into_inst : string -> json_outcome Inst)
  : M (Values * (Inst * option error)) :=
  let queryString := api +:+ "/" +:+ version +:+ "/" +:+ mode +:+ "/" +:+ query in
  QueryBase b queryString v inst into_inst.

End client.
End base.

(** ** Package tilesets *)

Module tilesets.
Import base.

Definition apiName : string := "tilesets".
Definition apiVersion : string := "v1".

(** [type Tileset struct]. The methods dereference [t.base] before any
    request is made, so a Tileset here holds a Base, as [NewTileset] gives
    it when it is handed the Base of a successful [NewBase]. *)
Record Tileset := { tbase : Base; username : string; tilesetID : string }.

(** [type UploadResponse struct] *)
Record UploadResponse := {
  FileSize : Z; Files : Z; SourceSize : Z; UploadID : string
}.

(** [type PublishResponse struct] *)
Record PublishResponse := { PublishMessage : string; JobID : string }.

(** [type StatusResponse struct] *)
Record StatusResponse := { StatusID : string; LatestJob : string; Status : string }.

Definition zero_UploadResponse : UploadResponse :=
  {| FileSize := 0; Files := 0; SourceSize := 0; UploadID := "" |}.
Definition zero_PublishResponse : PublishResponse :=
  {| PublishMessage := ""; JobID := "" |}.
Definition zero_StatusResponse : StatusResponse :=
  {| StatusID := ""; LatestJob := ""; Status := "" |}.

(** encoding/json on the three response types of this package, each time
    decoding into a zero value. *)
Record Decoders := {
  json_UploadResponse : string -> json_outcome UploadResponse;
  json_PublishResponse : string -> json_outcome PublishResponse;
  json_StatusResponse : string -> json_outcome StatusResponse
}.

(** [NewTileset] *)
Definition NewTileset (b : Base) : Tileset :=
  {| tbase := b; username := ""; tilesetID := "" |}.

(** [SetTileset]: the receiver after the call. *)
Definition SetTileset (t : Tileset) (username tilesetID : string) : Tileset :=
  {| tbase := tbase t; username := username; tilesetID := tilesetID |}.

(** [postURL] *)
Definition postURL (t : Tileset) : string :=
  apiName +:+ "/" +:+ apiVersion +:+ "/" +:+ (username t +:+ "." +:+ tilesetID t).

Section client.
Variable W : Env.
Variable D : Decoders.

(** [UploadGeoJSON] *)
Definition UploadGeoJSON (t : Tileset) (pathToFile : string)
  : M (result UploadResponse) :=
  let postURL :=
    apiName +:+ "/" +:+ apiVersion +:+ "/sources/" +:+ username t +:+ "/" +:+ tilesetID t in
  let uploadResponse := zero_UploadResponse in
  '(res, err) ← PostUploadFileRequest W (tbase t) postURL pathToFile "file";
  match err with
  | Some err => mret (None, Some err)
  | None =>
      let '(uploadResponse, err) :=
        Unmarshal (json_UploadResponse D (default "" res)) uploadResponse in
      match err with
      | Some err => log_Fatal err
      | None => mret (Some uploadResponse, None)
      end
  end.

(** [CreateTileset] *)
Definition CreateTileset (t : Tileset) (pathToFile : string)
  : M (result MapboxAPIMessage) :=
  let maboxAPIMessage := Some zero_MapboxAPIMessage in
  match os_Open W pathToFile with
  | inl err => mret (None, Some (FromLib err))
  | inr data =>
      '(res, err) ← PostRequest W (tbase t) (postURL t) (Some data);
      match err with
      | Some err => mret (None, Some err)
      | None =>
          let '(maboxAPIMessage, _) :=
            UnmarshalPtr (json_MapboxAPIMessage W (default "" res)) maboxAPIMessage in
          mret (maboxAPIMessage, None)
      end
  end.

(** [PublishTileset] *)
Definition PublishTileset (t : Tileset) : M (result PublishResponse) :=
  let publishResponse := Some zero_PublishResponse in
  '(res, err) ← PostRequest W (tbase t) (postURL t +:+ "/publish") None;
  match err with
  | Some err => mret (None, Some err)
  | None =>
      fmt_Println (default "" res);;
      let '(publishResponse, _) :=
        UnmarshalPtr (json_PublishResponse D (default "" res)) publishResponse in
      mret (publishResponse, None)
  end.

(** One turn of the [for] loop of [CheckJobStatus]: [Some r] when the
    turn executes [return r], [None] when it reaches the end of the body. *)
Definition CheckJobStatus_turn (t : Tileset) : M (option (option error)) :=
  let statusResponse := zero_StatusResponse in
  '(res, err) ← SimpleGET W (tbase t) (postURL t +:+ "/status");
  match err with
  | Some err => mret (Some (Some err))
  | None =>
      let '(statusResponse, _) :=
        Unmarshal (json_StatusResponse D (default "" res)) statusResponse in
      if decide (Status statusResponse = "failed") then
        fmt_Println "Job failed";;
        mret (Some None)
      else if decide (Status statusResponse = "success") then
        fmt_Println "Job complete";;
        mret (Some None)
      else
        fmt_Println (Status statusResponse);;
        time_Sleep (5 * time_Second);;
        mret None
  end.

(** The [for] loop, cut after [fuel] turns. *)
Fixpoint CheckJobStatus_loop (fuel : nat) (t : Tileset) : M (option error) :=
  match fuel with
  | O => out_of_fuel
  | S fuel =>
      r ← CheckJobStatus_turn t;
      match r with
      | Some r => mret r
      | None => CheckJobStatus_loop fuel t
      end
  end.

(** [CheckJobStatus] *)
Definition CheckJobStatus (fuel : nat) (t : Tileset) : M (option error) :=
  fmt_Println "Awaiting job completion. This may take some time...";;
  CheckJobStatus_loop fuel t.

End client.
End tilesets.

(** ** What a call adds to the trace *)

(** The events of [s'] that were not yet in [s], newest first, for a state
    [s'] reached from [s]. *)
Definition added (s s' : State) : list event :=
  take (length (trace s') - length (trace s)) (trace s').

(** The requests a computation sends when it is run from [s], oldest first. *)
Definition sent_by {A} (m : M A) (s : State) : list Request :=
  requests (added s (m s).2).

(** The durations a computation sleeps when it is run from [s], oldest first. *)
Definition slept_by {A} (m : M A) (s : State) : list Z :=
  sleeps (added s (m s).2).

(** [q] is a query string one of whose [&]-separated pairs is [pair]. *)
Definition has_pair (q pair : string) : Prop :=
  exists before after : list string, q = Join "&" (before ++ pair :: after).



(** ** The requests the client builds *)

Definition plain_request (method url : string) : Request :=
  {| Method := method; URL := url; RawQuery := None;
     ContentType := None; Payload := NoBody |}.

(** The request [QueryRequest] hands to [client.Do]. *)
Definition query_request (b : base.Base) (query : string) (v : Values) : Request :=
  {| Method := MethodGet; URL := base.BaseURL +:+ "/" +:+ query;
     RawQuery := Some (Encode (Values_Set v "access_token" (base.token b)));
     ContentType := None; Payload := NoBody |}.

(** The request [PostUploadFileRequest] hands to [client.Do]. *)
Definition upload_request (W : base.Env) (b : base.Base)
    (postURL file filetype contents : string) : Request :=
  {| Method := MethodPost;
     URL := base.BaseURL +:+ "/" +:+ postURL +:+ "/?access_token=" +:+ base.token b;
     RawQuery := None; ContentType := Some "multipart/form-data";
     Payload := FormFile filetype (base.filepath_Base W file) contents |}.

(** The request [PostRequest] hands to [client.Do]. *)
Definition post_request (b : base.Base) (postURL : string) (data : option string)
  : Request :=
  {| Method := MethodPost;
     URL := base.BaseURL +:+ "/" +:+ postURL +:+ "?access_token=" +:+ base.token b;
     RawQuery := None;
     ContentType := if data is Some _ then Some "application/json" else None;
     Payload := Bytes (default "" data) |}.

(** The request each poll of [CheckJobStatus] makes. *)
Definition status_request (t : tilesets.Tileset) : Request :=
  plain_request MethodGet
    (base.BaseURL +:+ "/" +:+ (tilesets.postURL t +:+ "/status")
       +:+ "?access_token=" +:+ base.token (tilesets.tbase t)).

(** ** What a poll of the job status observes *)

Inductive observation : Type :=
| GetFailed (err : lib_error)      (* the status GET returned err *)
| JobStatus (status : string).     (* the Status field after decoding the body *)

(** What the poll observes whose GET is the [n]-th round trip. *)
Definition observe (W : base.Env) (D : tilesets.Decoders) (t : tilesets.Tileset)
    (n : nat) : observation :=
  match base.url_Parse W (URL (status_request t)) with
  | Some err => GetFailed err
  | None =>
      match base.RoundTrip W n (status_request t) with
      | inl err => GetFailed err
      | inr response =>
          JobStatus
            (tilesets.Status
               (Unmarshal (tilesets.json_StatusResponse D (Body response))
                          tilesets.zero_StatusResponse).1)
      end
  end.

(** The observations that end the loop. *)
Definition terminal (o : observation) : bool :=
  match o with
  | GetFailed _ => true
  | JobStatus status => bool_decide (status = "failed" \/ status = "success")
  end.

(** What [CheckJobStatus] returns on a terminal observation. *)
Definition verdict (o : observation) : option error :=
  match o with
  | GetFailed err => Some (FromLib err)
  | JobStatus _ => None
  end.

(** ** Environments to run the client in

    A network that answers by a script, a file system with every file but
    one, and decoders that agree with encoding/json on the bodies the runs
    below meet: [null], [{}], a page that is no JSON, and the one-field
    objects listed. *)

Definition quoted (s : string) : string :=
  String (Ascii.ascii_of_N 34) s +:+ String (Ascii.ascii_of_N 34) "".

(** The JSON object with the one member [key : value]. *)
Definition json_object (key value : string) : string :=
  "{" +:+ quoted key +:+ ":" +:+ quoted value +:+ "}".

Definition not_json : lib_error :=
  LibErr "encoding/json" "invalid character '<' looking for beginning of value".
Definition unexpected_EOF : lib_error := LibErr "io" "unexpected EOF".
Definition no_such_file : lib_error := LibErr "os" "no such file or directory".
Definition connection_refused : lib_error := LibErr "net/http" "connection refused".

Definition script_message (body : string) : json_outcome base.MapboxAPIMessage :=
  if decide (body = "null") then JsonNull
  else if decide (body = "{}") then JsonValue base.zero_MapboxAPIMessage
  else if decide (body = json_object "message" "Not Found") then
    JsonValue {| base.Message := "Not Found" |}
  else JsonSyntaxError not_json.

Definition script_Env (reply : nat -> Request -> lib_error + Response) : base.Env :=
  {| base.os_Open := fun file =>
       if decide (file = "missing.json") then inl no_such_file else inr "{}";
     base.filepath_Base := fun file => file;
     base.CreateFormFile := fun _ _ => None;
     base.url_Parse := fun _ => None;
     base.RoundTrip := reply;
     base.DumpRequest := fun _ => "";
     base.DumpResponse := fun _ => "";
     base.json_MapboxAPIMessage := script_message |}.

Definition script_status (body : string) : json_outcome tilesets.StatusResponse :=
  let status_is s :=
    JsonValue {| tilesets.StatusID := ""; tilesets.LatestJob := "";
                 tilesets.Status := s |} in
  if decide (body = json_object "status" "success") then status_is "success"
  else if decide (body = json_object "status" "failed") then status_is "failed"
  else if decide (body = json_object "status" "processing") then status_is "processing"
  else if decide (body = "{}") then status_is ""
  else if decide (body = "null") then JsonNull
  else JsonSyntaxError not_json.

Definition script_Decoders : tilesets.Decoders :=
  {| tilesets.json_UploadResponse := fun body =>
       if decide (body = "{}") then JsonValue tilesets.zero_UploadResponse
       else JsonSyntaxError not_json;
     tilesets.json_PublishResponse := fun body =>
       if decide (body = "null") then JsonNull
       else if decide (body = "{}") then JsonValue tilesets.zero_PublishResponse
       else JsonSyntaxError not_json;
     tilesets.json_StatusResponse := script_status |}.

(** The server answers every request with the same status code and body. *)
Definition always (code : Z) (body : string) (n : nat) (r : Request)
  : lib_error + Response :=
  inr {| StatusCode := code; Body := body; BodyErr := None |}.

(** The server answers with the bodies of [script] in turn, then with [last]
    for ever. *)
Definition in_turn (script : list string) (last : string) (n : nat) (r : Request)
  : lib_error + Response :=
  inr {| StatusCode := 200; Body := default last (script !! n); BodyErr := None |}.

(** The connection breaks while the body of a response is read. *)
Definition broken_body (code : Z) (n : nat) (r : Request) : lib_error + Response :=
  inr {| StatusCode := code; Body := ""; BodyErr := Some unexpected_EOF |}.

Definition test_Base : base.Base := {| base.token := "pk.test"; base.debug := false |}.
Definition test_Tileset : tilesets.Tileset :=
  tilesets.SetTileset (tilesets.NewTileset test_Base) "alice" "roads".

Definition processing : string := json_object "status" "processing".
Definition succeeded : string := json_object "status" "success".

(** Two polls see the job processing, the third sees it done. *)
Definition W_two_naps : base.Env := script_Env (in_turn [processing; processing] succeeded).
(** The job is processing for ever. *)
Definition W_processing : base.Env := script_Env (always 200 processing).
Definition W_null : base.Env := script_Env (always 200 "null").
Definition W_page : base.Env := script_Env (always 200 "<html>").
Definition W_not_found : base.Env :=
  script_Env (always 404 (json_object "message" "Not Found")).
Definition W_bad_request : base.Env := script_Env (always 400 "<html>").
Definition W_broken_400 : base.Env := script_Env (broken_body 400).
Definition W_refused : base.Env := script_Env (fun _ _ => inl connection_refused).

(** ** Readings of the specification *)

(** The error made from the body of a response with an error status. *)
Definition message_error (W : base.Env) (body : string) : error :=
  let decoded := Unmarshal (base.json_MapboxAPIMessage W body) base.zero_MapboxAPIMessage in
  errors_New (if decoded.2 is None then "api error: " +:+ base.Message decoded.1
              else "Bad Request (400) - no message").

(** The reading of "a 400 status in QueryBase is answered with the error made
    from the body" that asks it of every response with status 400. *)
Definition QueryBase_decodes_every_400 {Inst : Type} (W : base.Env) (b : base.Base)
    (query : string) (v : Values) (inst : Inst)
    (into_inst : string -> json_outcome Inst) (s : State) : Prop :=
  forall resp,
    base.url_Parse W (base.BaseURL +:+ "/" +:+ query) = None ->
    base.RoundTrip W (trips s) (query_request b query v) = inr resp ->
    StatusCode resp = 400%Z ->
    exists w i, (base.QueryBase W b query v inst into_inst s).1
                = Returns (w, (i, Some (message_error W (Body resp)))).

(** The reading of "whenever the POST succeeds CreateTileset returns a
    response that is not nil, and a nil error" that asks it of every body. *)
Definition CreateTileset_never_nil (W : base.Env) (t : tilesets.Tileset)
    (file : string) (s : State) : Prop :=
  forall data body s1,
    base.os_Open W file = inr data ->
    base.PostRequest W (tilesets.tbase t) (tilesets.postURL t) (Some data) s
      = (Returns (Some body, None), s1) ->
    exists message, (tilesets.CreateTileset W t file s).1 = Returns (Some message, None).

(** ** More vocabulary and environments *)

(** The lines printed among some events, oldest first. *)
Definition prints (evs : list event) : list string :=
  rev (omap (fun e => match e with Printed text => Some text | _ => None end) evs).

(** The lines a computation prints when it is run from [s], oldest first. *)
Definition printed_by {A} (m : M A) (s : State) : list string :=
  prints (added s (m s).2).

(** The environment [W] where every response carries the status code [f c]
    in place of its status code [c]; everything else is as in [W]. *)
Definition recode (f : Z -> Z) (W : base.Env) : base.Env :=
  {| base.os_Open := base.os_Open W;
     base.filepath_Base := base.filepath_Base W;
     base.CreateFormFile := base.CreateFormFile W;
     base.url_Parse := base.url_Parse W;
     base.RoundTrip := fun n r =>
       match base.RoundTrip W n r with
       | inl err => inl err
       | inr resp =>
           inr {| StatusCode := f (StatusCode resp); Body := Body resp;
                  BodyErr := BodyErr resp |}
       end;
     base.DumpRequest := base.DumpRequest W;
     base.DumpResponse := base.DumpResponse W;
     base.json_MapboxAPIMessage := base.json_MapboxAPIMessage W |}.

(** [c] occurs in [s]. *)
Fixpoint has_char (c : ascii) (s : string) : bool :=
  match s with
  | EmptyString => false
  | String x rest => Ascii.eqb c x || has_char c rest
  end.

(** No character of [s] is escaped by [QueryEscape]. *)
Fixpoint unreserved (s : string) : bool :=
  match s with
  | EmptyString => true
  | String x rest => negb (shouldEscape x) && unreserved rest
  end.

Definition invalid_escape : lib_error := LibErr "net/url" "invalid URL escape".

(** No URL parses. *)
Definition W_unparsable : base.Env :=
  {| base.os_Open := fun _ => inr "{}";
     base.filepath_Base := fun file => file;
     base.CreateFormFile := fun _ _ => None;
     base.url_Parse := fun _ => Some invalid_escape;
     base.RoundTrip := always 200 "{}";
     base.DumpRequest := fun _ => "";
     base.DumpResponse := fun _ => "";
     base.json_MapboxAPIMessage := script_message |}.

Definition W_ok : base.Env := script_Env (always 200 "{}").
Definition W_500 : base.Env := script_Env (always 500 "{}").
Definition W_broken_500 : base.Env := script_Env (broken_body 500).
Definition W_broken_200 : base.Env := script_Env (broken_body 200).

(** The line CheckJobStatus prints before its first poll. *)
Definition hello_line : string :=
  "Awaiting job completion. This may take some time..." +:+ newline.


(** * Properties *)

(** ** Tools *)

Lemma added_app (s s' : State) (evs : list event) :
  trace s' = evs ++ trace s -> added s s' = evs.
Proof.
  intros E. unfold added. rewrite E, length_app.
  replace (length evs + length (trace s) - length (trace s)) with (length evs) by lia.
  by rewrite take_app_length.
Qed.

Lemma requests_app (e1 e2 : list event) :
  requests (e1 ++ e2) = requests e2 ++ requests e1.
Proof. unfold requests. by rewrite omap_app, rev_app_distr. Qed.

Lemma sleeps_app (e1 e2 : list event) :
  sleeps (e1 ++ e2) = sleeps e2 ++ sleeps e1.
Proof. unfold sleeps. by rewrite omap_app, rev_app_distr. Qed.



Lemma Encode_has_token (v : Values) (tok : string) :
  has_pair (Encode (Values_Set v "access_token" tok))
           ("access_token=" +:+ QueryEscape tok).
Proof.
  assert (H : ("access_token=" +:+ QueryEscape tok)
              ∈ Encode_pairs (Values_Set v "access_token" tok)).
  { unfold Encode_pairs. apply list_elem_of_bind. exists "access_token". split.
    - unfold Values_Set. rewrite lookup_insert_eq. simpl. constructor.
    - unfold sorted_keys. rewrite merge_sort_Permutation.
      apply elem_of_elements, elem_of_dom. unfold Values_Set.
      rewrite lookup_insert_eq. by eexists. }
  apply list_elem_of_split in H as (l1 & l2 & E).
  exists l1, l2. unfold Encode. by rewrite E.
Qed.

(** The events between two states, read off a trace that was built by
    consing onto the older one. *)
Ltac split_trace t old :=
  match t with
  | old => constr:(@nil event)
  | ?e :: ?t' => let r := split_trace t' old in constr:(e :: r)
  end.

Ltac solve_added :=
  repeat match goal with
  | |- context [added ?s ?s'] =>
      let t := eval simpl in (trace s') in
      let evs := split_trace t (trace s) in
      rewrite (added_app s s' evs) by reflexivity
  end.

Ltac forall_list := repeat match goal with |- Forall _ _ => constructor end.

Ltac unfold_base :=
  unfold base.Query, base.QueryBase, base.QueryRequest, base.SimpleGET,
    base.PostRequest, base.PostUploadFileRequest, base.http_Get,
    base.http_NewRequest, base.client_Do, ReadAll in *.

Ltac unfold_tilesets :=
  unfold tilesets.UploadGeoJSON, tilesets.CreateTileset, tilesets.PublishTileset,
    tilesets.CheckJobStatus, tilesets.CheckJobStatus_turn in *.

(** Unfold the monad and the small effects. *)
Ltac run :=
  unfold mbind, M_bind, mret, M_ret, fmt_Println, fmt_Printf, time_Sleep,
    log_Fatal, emit, panic, os_Exit, out_of_fuel in *; simpl in *.

(** ** NewBase and SetDebug *)

(** C9: NewBase returns an error exactly when the token is the empty string;
    for a non-empty token it returns a Base holding that token, with debug
    off, and no error. *)
Theorem NewBase_error_iff_empty_token (tok : string) :
  ((base.NewBase tok).2 <> None <-> tok = "") /\
  (tok <> "" ->
   exists b, base.NewBase tok = (Some b, None) /\
             base.token b = tok /\ base.debug b = false).
Proof.
  unfold base.NewBase. destruct (decide (tok = "")) as [E|E]; simpl.
  - split; [split; [done|by intros _]|done].
  - split; [split; [by intros []|done]|].
    intros _. eexists. split; [reflexivity|done].
Qed.

Lemma NewBase_error_iff_empty_token_witness :
  "pk.token" <> "" /\
  exists b, base.NewBase "pk.token" = (Some b, None) /\
            base.token b = "pk.token" /\ base.debug b = false.
Proof.
  split; [discriminate|].
  apply (NewBase_error_iff_empty_token "pk.token"). discriminate.
Defined.

(** C8: SetDebug turns debug on whatever its argument is, false included,
    and leaves the token alone; after any calls of SetDebug debug is on, and
    it keeps the value it had only when there was no call. *)
Theorem SetDebug_ignores_argument (b : base.Base) (flag : bool) (flags : list bool) :
  base.debug (base.SetDebug b flag) = true /\
  base.debug (base.SetDebug b false) = true /\
  base.token (base.SetDebug b flag) = base.token b /\
  base.debug (foldl base.SetDebug b flags) =
    match flags with [] => base.debug b | _ :: _ => true end.
Proof.
  repeat split.
  destruct flags as [|f flags]; [done|]. simpl.
  generalize (base.SetDebug b f) (eq_refl : base.debug (base.SetDebug b f) = true).
  induction flags as [|g flags IH]; intros b' Hb'; simpl; [done|].
  by apply IH.
Qed.

(** ** Request URLs *)


(** The four functions do send a request, to the URL the source formats. *)
Example requests_of_the_four_functions :
  let W := script_Env (always 200 "{}") in
  sent_by (base.SimpleGET W test_Base "a/b") start =
    [plain_request "GET" "https://api.mapbox.com/a/b?access_token=pk.test"] /\
  sent_by (base.PostRequest W test_Base "a/b" None) start =
    [post_request test_Base "a/b" None] /\
  URL (post_request test_Base "a/b" None) =
    "https://api.mapbox.com/a/b?access_token=pk.test" /\
  URL <$> sent_by (base.PostUploadFileRequest W test_Base "a/b" "f.json" "file") start =
    ["https://api.mapbox.com/a/b/?access_token=pk.test"] /\
  (fun r => (URL r, RawQuery r)) <$> sent_by (base.QueryRequest W test_Base "a/b" ∅) start =
    [("https://api.mapbox.com/a/b", Some "access_token=pk.test")].
Proof. vm_compute. repeat split. Qed.

Example Encode_sorts_and_escapes :
  Encode (Values_Set {[ "limit" := ["5"]; "country" := ["nz au"] ]} "access_token" "pk.t/1")
  = "access_token=pk.t%2F1&country=nz+au&limit=5".
Proof. vm_compute. reflexivity. Qed.

(** ** The job-status loop *)

Section polling.
Variables (W : base.Env) (D : tilesets.Decoders) (t : tilesets.Tileset).

Lemma turn_terminal (s : State) :
  terminal (observe W D t (trips s)) = true ->
  exists s' evs,
    tilesets.CheckJobStatus_turn W D t s
      = (Returns (Some (verdict (observe W D t (trips s)))), s') /\
    trace s' = evs ++ trace s /\
    sleeps evs = [] /\
    Forall (eq (status_request t)) (requests evs).
Proof.
  unfold observe, status_request, plain_request.
  unfold_tilesets; unfold_base; run.
  repeat (case_match; simplify_eq/=); intros Hterm; try discriminate Hterm;
    try (match goal with
         | H' : bool_decide _ = true |- _ =>
             apply bool_decide_eq_true in H'; naive_solver
         end);
    eexists;
    match goal with
    | |- exists evs, (_, ?s') = _ /\ _ =>
        let tr := eval simpl in (trace s') in
        let evs := split_trace tr (trace s) in
        exists evs
    end; repeat split; forall_list; done.
Qed.

Lemma turn_continue (s : State) :
  terminal (observe W D t (trips s)) = false ->
  exists status,
    observe W D t (trips s) = JobStatus status /\
    tilesets.CheckJobStatus_turn W D t s
      = (Returns None,
         {| trips := S (trips s);
            trace := Slept (5 * time_Second)%Z :: Printed (status +:+ newline)
                       :: Sent (status_request t) :: trace s |}).
Proof.
  unfold observe, status_request, plain_request.
  unfold_tilesets; unfold_base; run.
  repeat (case_match; simplify_eq/=); intros Hterm; try discriminate Hterm;
    try (match goal with
         | H' : bool_decide _ = false |- _ =>
             apply bool_decide_eq_false in H'; naive_solver
         end);
    eexists; (split; reflexivity).
Qed.

(** As long as no poll observes a terminal status the loop is still
    running, one sleep of 5 seconds per turn. *)
Lemma loop_keeps_polling (fuel : nat) : forall s,
  (forall i, i < fuel -> terminal (observe W D t (trips s + i)) = false) ->
  exists evs,
    tilesets.CheckJobStatus_loop W D fuel t s
      = (OutOfFuel, {| trips := trips s + fuel; trace := evs ++ trace s |}) /\
    sleeps evs = replicate fuel (5 * time_Second)%Z /\
    requests evs = replicate fuel (status_request t).
Proof.
  induction fuel as [|fuel IH]; intros s H.
  - exists []. simpl. unfold out_of_fuel. rewrite Nat.add_0_r. by destruct s.
  - destruct (turn_continue s) as (status & _ & E).
    { specialize (H 0 ltac:(lia)). by rewrite Nat.add_0_r in H. }
    simpl. unfold mbind, M_bind. rewrite E.
    edestruct IH as (evs & E' & Sl & Rq); [|rewrite E'].
    { intros i Hi. simpl. specialize (H (S i) ltac:(lia)).
      by rewrite Nat.add_succ_r in H. }
    simpl.
    exists (evs ++ [Slept (5 * time_Second)%Z; Printed (status +:+ newline); Sent (status_request t)]).
    rewrite <- app_assoc, Nat.add_succ_r, sleeps_app, requests_app, Sl, Rq.
    repeat split.
Qed.

(** The loop returns at the first poll that observes a terminal status. *)
Lemma loop_returns (k : nat) : forall s fuel,
  (forall i, i < k -> terminal (observe W D t (trips s + i)) = false) ->
  terminal (observe W D t (trips s + k)) = true ->
  k < fuel ->
  exists s' evs,
    tilesets.CheckJobStatus_loop W D fuel t s
      = (Returns (verdict (observe W D t (trips s + k))), s') /\
    trace s' = evs ++ trace s /\
    sleeps evs = replicate k (5 * time_Second)%Z /\
    Forall (eq (status_request t)) (requests evs).
Proof.
  induction k as [|k IH]; intros s [|fuel] Hlow Hk Hfuel; try lia.
  - rewrite Nat.add_0_r in *.
    destruct (turn_terminal s Hk) as (s' & evs & E & T & Sl & Rq).
    exists s', evs. simpl. unfold mbind, M_bind. by rewrite E.
  - destruct (turn_continue s) as (status & _ & E).
    { specialize (Hlow 0 ltac:(lia)). by rewrite Nat.add_0_r in Hlow. }
    simpl. unfold mbind, M_bind. rewrite E.
    set (s1 := {| trips := S (trips s);
                  trace := Slept (5 * time_Second)%Z :: Printed (status +:+ newline)
                             :: Sent (status_request t) :: trace s |}).
    destruct (IH s1 fuel) as (s' & evs & E' & T & Sl & Rq);
      [| |lia|rewrite E'].
    { intros i Hi. simpl. specialize (Hlow (S i) ltac:(lia)).
      by rewrite Nat.add_succ_r in Hlow. }
    { simpl. by rewrite Nat.add_succ_r in Hk. }
    simpl in *. rewrite Nat.add_succ_r.
    exists s', (evs ++ [Slept (5 * time_Second)%Z; Printed (status +:+ newline); Sent (status_request t)]).
    rewrite <- app_assoc, sleeps_app, requests_app, Sl.
    repeat split; [done|].
    apply Forall_app. split; [forall_list; done|done].
Qed.

(** Below any bound, either no observation is terminal or there is a first
    terminal one. *)
Lemma first_terminal (n bound : nat) :
  (forall i, i < bound -> terminal (observe W D t (n + i)) = false) \/
  (exists k, k < bound /\ terminal (observe W D t (n + k)) = true /\
             forall i, i < k -> terminal (observe W D t (n + i)) = false).
Proof.
  induction bound as [|bound [IH|(k & ? & ? & ?)]].
  - left. intros; lia.
  - destruct (terminal (observe W D t (n + bound))) eqn:E.
    + right. exists bound. repeat split; [lia|done|]. intros; apply IH; lia.
    + left. intros i Hi. destruct (decide (i = bound)) as [->|]; [done|].
      apply IH; lia.
  - right. exists k. repeat split; [lia|done..].
Qed.
End polling.

Lemma terminal_iff (o : observation) :
  terminal o = true <->
  (exists err, o = GetFailed err) \/ o = JobStatus "failed" \/ o = JobStatus "success".
Proof.
  destruct o as [err|status]; simpl.
  - split; [eauto|done].
  - rewrite bool_decide_eq_true. naive_solver.
Qed.

(** C1: CheckJobStatus returns only at the first poll whose GET fails, and
    then it returns that error, or whose decoded status is "failed" or
    "success", and then it returns nil; every other poll prints the status,
    sleeps 5 seconds and is followed by another poll, so that the call is
    still running after any number of turns while no poll is terminal. *)
Theorem CheckJobStatus_returns_only_on_terminal_status
    (W : base.Env) (D : tilesets.Decoders) (t : tilesets.Tileset) (s : State) :
  let obs i := observe W D t (trips s + i) in
  let poll fuel := tilesets.CheckJobStatus W D fuel t in
  let nap := (5 * time_Second)%Z in
  (forall o, terminal o = true <->
     (exists err, o = GetFailed err) \/ o = JobStatus "failed" \/ o = JobStatus "success") /\
  (forall k,
     (forall i, i < k -> terminal (obs i) = false) -> terminal (obs k) = true ->
     forall fuel, k < fuel ->
       (poll fuel s).1 = Returns (verdict (obs k)) /\
       slept_by (poll fuel) s = replicate k nap) /\
  ((forall i, terminal (obs i) = false) ->
     forall fuel,
       (poll fuel s).1 = OutOfFuel /\
       slept_by (poll fuel) s = replicate fuel nap) /\
  (forall fuel r,
     (poll fuel s).1 = Returns r ->
     exists k, k < fuel /\ (forall i, i < k -> terminal (obs i) = false) /\
               terminal (obs k) = true /\ r = verdict (obs k)) /\
  (forall fuel, (poll fuel s).1 = OutOfFuel \/ exists r, (poll fuel s).1 = Returns r).
Proof.
  intros obs poll nap.
  set (hello := Printed ("Awaiting job completion. This may take some time..." +:+ newline)).
  set (s0 := {| trips := trips s; trace := hello :: trace s |}).
  assert (Hpoll : forall fuel, poll fuel s = tilesets.CheckJobStatus_loop W D fuel t s0)
    by reflexivity.
  assert (Hret : forall k fuel,
    (forall i, i < k -> terminal (obs i) = false) -> terminal (obs k) = true ->
    k < fuel ->
    (poll fuel s).1 = Returns (verdict (obs k)) /\
    slept_by (poll fuel) s = replicate k nap).
  { intros k fuel Hlow Hk Hfuel.
    destruct (loop_returns W D t k s0 fuel Hlow Hk Hfuel) as (s' & evs & E & T & Sl & _).
    unfold slept_by. rewrite Hpoll, E. split; [done|]. simpl.
    rewrite (added_app s s' (evs ++ [hello])).
    - by rewrite sleeps_app, Sl.
    - by rewrite T, <- app_assoc. }
  assert (Hrun : forall fuel,
    (forall i, i < fuel -> terminal (obs i) = false) ->
    (poll fuel s).1 = OutOfFuel /\ slept_by (poll fuel) s = replicate fuel nap).
  { intros fuel Hall.
    destruct (loop_keeps_polling W D t fuel s0 Hall) as (evs & E & Sl & _).
    unfold slept_by. rewrite Hpoll, E. split; [done|]. simpl.
    rewrite (added_app s _ (evs ++ [hello])).
    - by rewrite sleeps_app, Sl.
    - simpl. by rewrite <- app_assoc. }
  split; [apply terminal_iff|].
  split; [intros; by apply Hret|].
  split; [intros Hall fuel; apply Hrun; auto|].
  split.
  - intros fuel r Hr.
    destruct (first_terminal W D t (trips s) fuel) as [Hall|(k & Hk & Hterm & Hlow)].
    + destruct (Hrun fuel Hall) as [E _]. congruence.
    + exists k. repeat split; [done..|].
      destruct (Hret k fuel Hlow Hterm Hk) as [E _]. congruence.
  - intros fuel.
    destruct (first_terminal W D t (trips s) fuel) as [Hall|(k & Hk & Hterm & Hlow)].
    + left. by apply Hrun.
    + right. eexists. by apply Hret.
Qed.

Lemma CheckJobStatus_returns_only_on_terminal_status_witness :
  (tilesets.CheckJobStatus W_two_naps script_Decoders 5 test_Tileset start).1
    = Returns None /\
  slept_by (tilesets.CheckJobStatus W_two_naps script_Decoders 5 test_Tileset) start
    = [5000000000; 5000000000]%Z /\
  forall fuel,
    (tilesets.CheckJobStatus W_processing script_Decoders fuel test_Tileset start).1
      = OutOfFuel.
Proof.
  pose proof (CheckJobStatus_returns_only_on_terminal_status
    W_two_naps script_Decoders test_Tileset start) as (_ & Hret & _).
  pose proof (CheckJobStatus_returns_only_on_terminal_status
    W_processing script_Decoders test_Tileset start) as (_ & _ & Hrun & _).
  destruct (Hret 2) with (fuel := 5) as [E Sl].
  - intros [|[|i]] Hi; [reflexivity..|lia].
  - reflexivity.
  - lia.
  - split; [exact E|]. split; [exact Sl|].
    intros fuel. apply Hrun. intros i. reflexivity.
Defined.

(** ** Endpoints of the tileset client *)



(** The four methods do send these requests. *)
Example tileset_requests :
  let W := script_Env (always 200 "null") in
  let D := script_Decoders in
  URL <$> sent_by (tilesets.CreateTileset W test_Tileset "recipe.json") start =
    ["https://api.mapbox.com/tilesets/v1/alice.roads?access_token=pk.test"] /\
  URL <$> sent_by (tilesets.PublishTileset W D test_Tileset) start =
    ["https://api.mapbox.com/tilesets/v1/alice.roads/publish?access_token=pk.test"] /\
  URL <$> sent_by (tilesets.CheckJobStatus W D 2 test_Tileset) start =
    ["https://api.mapbox.com/tilesets/v1/alice.roads/status?access_token=pk.test";
     "https://api.mapbox.com/tilesets/v1/alice.roads/status?access_token=pk.test"] /\
  URL <$> sent_by (tilesets.UploadGeoJSON W D test_Tileset "roads.ldgeojson") start =
    ["https://api.mapbox.com/tilesets/v1/sources/alice/roads/?access_token=pk.test"].
Proof. vm_compute. repeat split. Qed.

(** ** The two named errors *)

Lemma verdict_not_sentinel (o : observation) (e : error) :
  verdict o = Some e -> is_sentinel e = false.
Proof. destruct o; simpl; [|done]. by intros [= <-]. Qed.

Lemma loop_result (W : base.Env) (D : tilesets.Decoders) (t : tilesets.Tileset)
    (fuel : nat) (s : State) :
  (tilesets.CheckJobStatus_loop W D fuel t s).1 = OutOfFuel \/
  exists k, (tilesets.CheckJobStatus_loop W D fuel t s).1
              = Returns (verdict (observe W D t (trips s + k))).
Proof.
  destruct (first_terminal W D t (trips s) fuel) as [Hall|(k & Hk & Hterm & Hlow)].
  - destruct (loop_keeps_polling W D t fuel s Hall) as (evs & E & _).
    left. by rewrite E.
  - destruct (loop_returns W D t k s fuel Hlow Hterm Hk) as (s' & evs & E & _).
    right. exists k. by rewrite E.
Qed.

(** C3: in QueryRequest a response with status code 429 yields
    ErrorAPILimitExceeded and a nil response, one with status code 401 yields
    ErrorAPIUnauthorized and a nil response; an error that QueryRequest or
    QueryBase return is one of the two only after such a response, and no
    error returned by any other function of the client is one of the two. *)
Theorem sentinel_errors_exactly_for_429_and_401
    (W : base.Env) (D : tilesets.Decoders) (b : base.Base) (t : tilesets.Tileset)
    (query path file filetype tok : string) (data : option string) (v : Values)
    (Inst : Type) (inst : Inst) (into_inst : string -> json_outcome Inst)
    (fuel : nat) (s : State) :
  let v' := Values_Set v "access_token" (base.token b) in
  let answer := base.RoundTrip W (trips s) (query_request b query v) in
  let from_status (e : error) :=
    exists resp, answer = inr resp /\
      (StatusCode resp = 429%Z /\ e = ErrorAPILimitExceeded \/
       StatusCode resp = 401%Z /\ e = ErrorAPIUnauthorized) in
  (forall resp,
     base.url_Parse W (base.BaseURL +:+ "/" +:+ query) = None ->
     answer = inr resp ->
     (StatusCode resp = 429%Z ->
      (base.QueryRequest W b query v s).1
        = Returns (v', (None, Some ErrorAPILimitExceeded))) /\
     (StatusCode resp = 401%Z ->
      (base.QueryRequest W b query v s).1
        = Returns (v', (None, Some ErrorAPIUnauthorized)))) /\
  (forall w r e,
     (base.QueryRequest W b query v s).1 = Returns (w, (r, Some e)) ->
     is_sentinel e = true -> r = None /\ from_status e) /\
  (forall w i e,
     (base.QueryBase W b query v inst into_inst s).1 = Returns (w, (i, Some e)) ->
     is_sentinel e = true -> from_status e) /\
  (forall e, (base.NewBase tok).2 = Some e -> is_sentinel e = false) /\
  (forall r e, (base.SimpleGET W b path s).1 = Returns (r, Some e) ->
               is_sentinel e = false) /\
  (forall r e, (base.PostRequest W b path data s).1 = Returns (r, Some e) ->
               is_sentinel e = false) /\
  (forall r e,
     (base.PostUploadFileRequest W b path file filetype s).1 = Returns (r, Some e) ->
     is_sentinel e = false) /\
  (forall r e, (tilesets.UploadGeoJSON W D t file s).1 = Returns (r, Some e) ->
               is_sentinel e = false) /\
  (forall r e, (tilesets.CreateTileset W t file s).1 = Returns (r, Some e) ->
               is_sentinel e = false) /\
  (forall r e, (tilesets.PublishTileset W D t s).1 = Returns (r, Some e) ->
               is_sentinel e = false) /\
  (forall e, (tilesets.CheckJobStatus W D fuel t s).1 = Returns (Some e) ->
             is_sentinel e = false).
Proof.
  intros v' answer from_status. unfold from_status, answer, v', query_request.
  split; [|split; [|split]].
  - intros resp Hparse Hanswer. unfold_base; run. rewrite Hparse.
    destruct (base.debug b); simpl; rewrite Hanswer; simpl;
      split; intros ->; simpl; done.
  - intros w r e. unfold_base; run.
    repeat (case_match; simplify_eq/=); intros; simplify_eq/=; eauto 10.
  - intros w i e. unfold_base; run.
    repeat (case_match; simplify_eq/=); intros; simplify_eq/=; eauto 10.

  - repeat split; intros *.
    + unfold base.NewBase. case_decide; simpl; by intros [= <-].
    + unfold_base; run. repeat (case_match; simplify_eq/=); intros; by simplify_eq/=.
    + unfold_base; run. repeat (case_match; simplify_eq/=); intros; by simplify_eq/=.
    + unfold_base; run. repeat (case_match; simplify_eq/=); intros; by simplify_eq/=.
    + unfold_tilesets; unfold_base; run. repeat (case_match; simplify_eq/=); intros; by simplify_eq/=.
    + unfold_tilesets; unfold_base; run. repeat (case_match; simplify_eq/=); intros; by simplify_eq/=.
    + unfold_tilesets; unfold_base; run. repeat (case_match; simplify_eq/=); intros; by simplify_eq/=.
    + unfold tilesets.CheckJobStatus; run.
      match goal with |- context [tilesets.CheckJobStatus_loop W D fuel t ?s0] =>
        destruct (loop_result W D t fuel s0) as [E|[k E]]; rewrite E end; [done|].
      intros [= E']. by eapply verdict_not_sentinel.
Qed.

Lemma sentinel_errors_exactly_for_429_and_401_witness :
  (base.QueryRequest (script_Env (always 429 "")) test_Base "geocoding/v5" ∅ start).1
    = Returns (Values_Set ∅ "access_token" "pk.test", (None, Some ErrorAPILimitExceeded)) /\
  (base.QueryRequest (script_Env (always 401 "")) test_Base "geocoding/v5" ∅ start).1
    = Returns (Values_Set ∅ "access_token" "pk.test", (None, Some ErrorAPIUnauthorized)).
Proof.
  split.
  - refine (proj1 (proj1 (sentinel_errors_exactly_for_429_and_401
      (script_Env (always 429 "")) script_Decoders test_Base test_Tileset
      "geocoding/v5" "" "" "" "" None ∅ unit tt (fun _ => JsonNull) 0 start)
      {| StatusCode := 429; Body := ""; BodyErr := None |} eq_refl eq_refl) eq_refl).
  - refine (proj2 (proj1 (sentinel_errors_exactly_for_429_and_401
      (script_Env (always 401 "")) script_Decoders test_Base test_Tileset
      "geocoding/v5" "" "" "" "" None ∅ unit tt (fun _ => JsonNull) 0 start)
      {| StatusCode := 401; Body := ""; BodyErr := None |} eq_refl eq_refl) eq_refl).
Defined.

(** Other failures reach the caller as the error of the package that failed. *)
Example other_errors_are_passed_on :
  (base.QueryRequest W_refused test_Base "geocoding/v5" ∅ start).1
    = Returns (Values_Set ∅ "access_token" "pk.test",
               (None, Some (FromLib connection_refused))) /\
  (base.SimpleGET W_refused test_Base "tilesets/v1" start).1
    = Returns (None, Some (FromLib connection_refused)) /\
  (base.QueryRequest (script_Env (always 200 "{}")) test_Base "geocoding/v5" ∅ start).1
    = Returns (Values_Set ∅ "access_token" "pk.test",
               (Some {| StatusCode := 200; Body := "{}"; BodyErr := None |}, None)).
Proof. repeat split. Qed.

(** ** Errors made from the body of a response *)

(** C4, amended: when PostUploadFileRequest receives a response whose status
    is not 200, or QueryBase one whose status is 400 and whose body was read
    without error, the body is decoded as a MapboxAPIMessage; the error
    returned is "api error: <message>" when the decoding succeeds and
    "Bad Request (400) - no message" when it fails. When QueryBase cannot
    read the body of a 400 response it returns the error of the read. *)
Theorem error_status_message
    (W : base.Env) (b : base.Base) (path file filetype query : string)
    (v : Values) (Inst : Type) (inst : Inst)
    (into_inst : string -> json_outcome Inst) (s : State) :
  (forall body,
     match base.json_MapboxAPIMessage W body with
     | JsonValue m => message_error W body = errors_New ("api error: " +:+ base.Message m)
     | JsonNull => message_error W body = errors_New "api error: "
     | JsonSyntaxError _ | JsonTypeError _ _ =>
         message_error W body = errors_New "Bad Request (400) - no message"
     end) /\
  (forall contents resp,
     base.os_Open W file = inr contents ->
     base.CreateFormFile W filetype (base.filepath_Base W file) = None ->
     base.url_Parse W (URL (upload_request W b path file filetype contents)) = None ->
     base.RoundTrip W (trips s) (upload_request W b path file filetype contents) = inr resp ->
     StatusCode resp <> 200%Z ->
     (base.PostUploadFileRequest W b path file filetype s).1
       = Returns (None, Some (message_error W (Body resp)))) /\
  (forall resp,
     base.url_Parse W (base.BaseURL +:+ "/" +:+ query) = None ->
     base.RoundTrip W (trips s) (query_request b query v) = inr resp ->
     StatusCode resp = 400%Z ->
     BodyErr resp = None ->
     (base.QueryBase W b query v inst into_inst s).1
       = Returns (Values_Set v "access_token" (base.token b),
                  (inst, Some (message_error W (Body resp))))) /\
  (forall resp err,
     base.url_Parse W (base.BaseURL +:+ "/" +:+ query) = None ->
     base.RoundTrip W (trips s) (query_request b query v) = inr resp ->
     StatusCode resp = 400%Z ->
     BodyErr resp = Some err ->
     (base.QueryBase W b query v inst into_inst s).1
       = Returns (Values_Set v "access_token" (base.token b),
                  (inst, Some (FromLib err)))).
Proof.
  unfold message_error, upload_request, query_request. repeat split.
  - intros body. by destruct (base.json_MapboxAPIMessage W body).
  - intros contents resp Hopen Hform Hparse Hanswer Hstatus. simpl in *.
    unfold_base; run. rewrite Hopen, Hform, Hparse. simpl. rewrite Hanswer.
    simpl. unfold StatusOK. case_decide; [|done].
    by destruct (Unmarshal _ _) as [m [e|]].
  - intros resp Hparse Hanswer Hstatus Hbody.
    unfold_base; run. rewrite Hparse.
    destruct (base.debug b); simpl; rewrite Hanswer; simpl;
      unfold base.statusRateLimitExceeded, StatusUnauthorized, StatusBadRequest;
      rewrite Hstatus; repeat (case_decide; try done); simpl;
      rewrite Hbody; repeat (case_decide; try done);
      by destruct (Unmarshal _ _) as [m [e|]].
  - intros resp err Hparse Hanswer Hstatus Hbody.
    unfold_base; run. rewrite Hparse.
    destruct (base.debug b); simpl; rewrite Hanswer; simpl;
      unfold base.statusRateLimitExceeded, StatusUnauthorized, StatusBadRequest;
      rewrite Hstatus; repeat (case_decide; try done); simpl;
      by rewrite Hbody.
Qed.

Lemma error_status_message_witness :
  (base.PostUploadFileRequest W_not_found test_Base "tilesets/v1/sources/alice/roads"
     "roads.ldgeojson" "file" start).1
    = Returns (None, Some (errors_New "api error: Not Found")) /\
  (base.QueryBase W_bad_request test_Base "geocoding/v5" ∅ tt
     (fun _ => JsonNull) start).1
    = Returns (Values_Set ∅ "access_token" "pk.test",
               (tt, Some (errors_New "Bad Request (400) - no message"))).
Proof.
  split.
  - refine (proj1 (proj2 (error_status_message W_not_found test_Base
      "tilesets/v1/sources/alice/roads" "roads.ldgeojson" "file" "" ∅ unit tt
      (fun _ => JsonNull) start)) "{}"
      {| StatusCode := 404; Body := json_object "message" "Not Found"; BodyErr := None |}
      eq_refl eq_refl eq_refl eq_refl _).
    discriminate.
  - refine (proj1 (proj2 (proj2 (error_status_message W_bad_request
      test_Base "" "" "" "geocoding/v5" ∅ unit tt (fun _ => JsonNull) start)))
      {| StatusCode := 400; Body := "<html>"; BodyErr := None |}
      eq_refl eq_refl eq_refl eq_refl).
Defined.

(** A response with status 400 whose body cannot be read to the end: QueryBase
    returns the error of the read, and decodes nothing. *)
Lemma QueryBase_400_with_broken_body :
  (base.QueryBase W_broken_400 test_Base "geocoding/v5" ∅ tt (fun _ => JsonNull) start).1
    = Returns (Values_Set ∅ "access_token" "pk.test",
               (tt, Some (FromLib unexpected_EOF))) /\
  ~ QueryBase_decodes_every_400 W_broken_400 test_Base "geocoding/v5" ∅ tt
      (fun _ => JsonNull) start.
Proof.
  split; [reflexivity|].
  intros H.
  destruct (H {| StatusCode := 400; Body := ""; BodyErr := Some unexpected_EOF |}
              eq_refl eq_refl eq_refl) as (w & i & E).
  discriminate E.
Qed.

(** ** Decoding failures in the tileset client *)

(** C7, amended: CreateTileset and PublishTileset ignore what json.Unmarshal
    returns: whenever the POST succeeds they return a nil error, with a
    response that is not nil unless the body is the JSON literal null; a
    body that is not valid JSON leaves the returned struct at its zero
    value. A status body that is not valid JSON makes the turn of
    CheckJobStatus print the empty status, sleep 5 seconds and go on to the
    next poll. *)
Theorem decoding_failures_are_ignored
    (W : base.Env) (D : tilesets.Decoders) (t : tilesets.Tileset)
    (file : string) (s : State) :
  (forall data body s1,
     base.os_Open W file = inr data ->
     base.PostRequest W (tilesets.tbase t) (tilesets.postURL t) (Some data) s
       = (Returns (Some body, None), s1) ->
     exists r,
       tilesets.CreateTileset W t file s = (Returns (r, None), s1) /\
       (base.json_MapboxAPIMessage W body <> JsonNull -> r <> None) /\
       (forall e, base.json_MapboxAPIMessage W body = JsonSyntaxError e ->
                  r = Some base.zero_MapboxAPIMessage)) /\
  (forall body s1,
     base.PostRequest W (tilesets.tbase t) (tilesets.postURL t +:+ "/publish") None s
       = (Returns (Some body, None), s1) ->
     exists r,
       tilesets.PublishTileset W D t s
         = (Returns (r, None),
            {| trips := trips s1; trace := Printed (body +:+ newline) :: trace s1 |}) /\
       (tilesets.json_PublishResponse D body <> JsonNull -> r <> None) /\
       (forall e, tilesets.json_PublishResponse D body = JsonSyntaxError e ->
                  r = Some tilesets.zero_PublishResponse)) /\
  (forall body s1 e,
     base.SimpleGET W (tilesets.tbase t) (tilesets.postURL t +:+ "/status") s
       = (Returns (Some body, None), s1) ->
     tilesets.json_StatusResponse D body = JsonSyntaxError e ->
     let s2 := {| trips := trips s1;
                  trace := Slept (5 * time_Second) :: Printed ("" +:+ newline)
                             :: trace s1 |} in
     tilesets.CheckJobStatus_turn W D t s = (Returns None, s2) /\
     forall fuel,
       tilesets.CheckJobStatus_loop W D (S fuel) t s
         = tilesets.CheckJobStatus_loop W D fuel t s2).
Proof.
  split; [|split; [|intros body s1 e Hget Hjson s2; split]].
  - intros data body s1 Hopen Hpost. unfold_tilesets; run. rewrite Hopen, Hpost. simpl.
    destruct (base.json_MapboxAPIMessage W body); simpl;
      eexists; (split; [reflexivity|]); split; intros; simplify_eq; done.
  - intros body s1 Hpost. unfold_tilesets; run. rewrite Hpost. simpl.
    destruct (tilesets.json_PublishResponse D body); simpl;
      eexists; (split; [reflexivity|]); split; intros; simplify_eq; done.
  - unfold_tilesets; run. rewrite Hget. simpl. rewrite Hjson. reflexivity.
  - intros fuel. simpl. unfold_tilesets; run. rewrite Hget. simpl.
    rewrite Hjson. reflexivity.
Qed.

Lemma decoding_failures_are_ignored_witness :
  tilesets.CreateTileset W_page test_Tileset "recipe.json" start
    = (Returns (Some base.zero_MapboxAPIMessage, None),
       {| trips := 1;
          trace := [Sent (post_request test_Base "tilesets/v1/alice.roads" (Some "{}"))] |}).
Proof.
  destruct (proj1 (decoding_failures_are_ignored W_page script_Decoders test_Tileset
              "recipe.json" start) "{}" "<html>" _ eq_refl eq_refl)
    as (r & E & _ & Hzero).
  rewrite E. by rewrite (Hzero not_json eq_refl).
Defined.

(** The server answers [null]: the pointer handed to json.Unmarshal is set to
    nil, and CreateTileset and PublishTileset return a nil response with a
    nil error. *)
Lemma CreateTileset_nil_on_null :
  (tilesets.CreateTileset W_null test_Tileset "recipe.json" start).1
    = Returns (None, None) /\
  (tilesets.PublishTileset W_null script_Decoders test_Tileset start).1
    = Returns (None, None) /\
  ~ CreateTileset_never_nil W_null test_Tileset "recipe.json" start.
Proof.
  split; [reflexivity|]. split; [reflexivity|].
  intros H. destruct (H "{}" "null" _ eq_refl eq_refl) as (m & E). discriminate E.
Qed.

(** A body that decodes with an error and still carries a status: the
    error is ignored and the status decides. *)
Example CheckJobStatus_reads_status_despite_error :
  let mismatch := LibErr "encoding/json" "cannot unmarshal number into Go struct field" in
  let D := {| tilesets.json_UploadResponse := fun _ => JsonNull;
              tilesets.json_PublishResponse := fun _ => JsonNull;
              tilesets.json_StatusResponse := fun _ =>
                JsonTypeError {| tilesets.StatusID := ""; tilesets.LatestJob := "";
                                 tilesets.Status := "success" |} mismatch |} in
  (tilesets.CheckJobStatus W_page D 3 test_Tileset start).1 = Returns None.
Proof. reflexivity. Qed.

(** ** Failures that do not come back as an error *)

(** C2: the specification has every failure of an HTTP or JSON operation come
    back to the caller as an error. UploadGeoJSON does not do so for the
    decoding of the upload response: once the upload has succeeded and
    json.Unmarshal returns an error, it logs the error and exits the process
    with status 1. *)
Theorem UploadGeoJSON_exits_when_decoding_fails
    (W : base.Env) (D : tilesets.Decoders) (t : tilesets.Tileset)
    (file body : string) (e : lib_error) (s s1 : State) :
  base.PostUploadFileRequest W (tilesets.tbase t)
      ("tilesets/v1/sources/" +:+ tilesets.username t +:+ "/" +:+ tilesets.tilesetID t)
      file "file" s
    = (Returns (Some body, None), s1) ->
  (Unmarshal (tilesets.json_UploadResponse D body) tilesets.zero_UploadResponse).2 = Some e ->
  tilesets.UploadGeoJSON W D t file s
    = (Exits 1, {| trips := trips s1; trace := Logged e :: trace s1 |}).
Proof.
  intros Hpost Hjson. unfold_tilesets; run.
  change (tilesets.apiName +:+ "/" +:+ tilesets.apiVersion +:+ "/sources/"
            +:+ tilesets.username t +:+ "/" +:+ tilesets.tilesetID t)
    with ("tilesets/v1/sources/" +:+ tilesets.username t +:+ "/" +:+ tilesets.tilesetID t).
  rewrite Hpost. simpl.
  destruct (Unmarshal _ _) as [u [e'|]]; simpl in *; by simplify_eq.
Qed.

Lemma UploadGeoJSON_exits_when_decoding_fails_witness :
  (tilesets.UploadGeoJSON W_page script_Decoders test_Tileset "roads.ldgeojson" start).1
    = Exits 1.
Proof.
  by rewrite (UploadGeoJSON_exits_when_decoding_fails W_page script_Decoders
    test_Tileset "roads.ldgeojson" "<html>" not_json start _ eq_refl eq_refl).
Defined.

(** When the round trip of an upload fails there is no response, and
    PostUploadFileRequest reads its body all the same. *)
Example PostUploadFileRequest_panics_without_response :
  (base.PostUploadFileRequest W_refused test_Base
     "tilesets/v1/sources/alice/roads" "roads.ldgeojson" "file" start).1
  = Panics nil_dereference.
Proof. reflexivity. Qed.

(** * Further properties of the two packages *)

(** ** What the query functions return *)

(** X1: QueryRequest always returns, and the map behind [v] then holds the
    token of the Base as the only value of access_token, whatever the caller
    had put there; every other key is as the caller left it. *)
Theorem QueryRequest_sets_only_access_token
    (W : base.Env) (b : base.Base) (query : string) (v : Values) (s : State) :
  exists w r,
    (base.QueryRequest W b query v s).1 = Returns (w, r) /\
    w !! "access_token" = Some [base.token b] /\
    delete "access_token" w = delete "access_token" v.
Proof.
  exists (Values_Set v "access_token" (base.token b)).
  assert (Hmap : Values_Set v "access_token" (base.token b) !! "access_token"
                   = Some [base.token b] /\
                 delete "access_token" (Values_Set v "access_token" (base.token b))
                   = delete "access_token" v).
  { unfold Values_Set. by rewrite lookup_insert_eq, delete_insert_eq. }
  unfold_base; run.
  repeat (case_match; simplify_eq/=); eexists; (split; [reflexivity|exact Hmap]).
Qed.

(** X2: QueryRequest hands back the response, with a nil error, for every
    status code other than 429 and 401: 400, 404 and 500 are no errors to
    it. *)
Theorem QueryRequest_other_statuses_pass
    (W : base.Env) (b : base.Base) (query : string) (v : Values) (s : State)
    (resp : Response) :
  base.url_Parse W (base.BaseURL +:+ "/" +:+ query) = None ->
  base.RoundTrip W (trips s) (query_request b query v) = inr resp ->
  StatusCode resp <> 429%Z ->
  StatusCode resp <> 401%Z ->
  (base.QueryRequest W b query v s).1
    = Returns (Values_Set v "access_token" (base.token b), (Some resp, None)).
Proof.
  unfold query_request. intros Hparse Hanswer H429 H401.
  unfold_base; run. rewrite Hparse.
  destruct (base.debug b); simpl; rewrite Hanswer; simpl;
    unfold base.statusRateLimitExceeded, StatusUnauthorized;
    repeat (case_decide; try done).
Qed.

Lemma QueryRequest_other_statuses_pass_witness :
  (base.QueryRequest W_500 test_Base "geocoding/v5" ∅ start).1
    = Returns (Values_Set ∅ "access_token" "pk.test",
               (Some {| StatusCode := 500; Body := "{}"; BodyErr := None |}, None)).
Proof.
  apply (QueryRequest_other_statuses_pass W_500 test_Base "geocoding/v5" ∅ start
           {| StatusCode := 500; Body := "{}"; BodyErr := None |});
    [reflexivity|reflexivity|discriminate|discriminate].
Defined.


(** X4: for a status code other than 400, 401 and 429, 500 included,
    QueryBase decodes the body into [inst] once it was read without error;
    it returns an error only when the decoding does. *)
Theorem QueryBase_decodes_other_statuses
    (W : base.Env) (b : base.Base) (query : string) (v : Values)
    (Inst : Type) (inst : Inst) (into_inst : string -> json_outcome Inst)
    (s : State) (resp : Response) :
  base.url_Parse W (base.BaseURL +:+ "/" +:+ query) = None ->
  base.RoundTrip W (trips s) (query_request b query v) = inr resp ->
  StatusCode resp <> 400%Z ->
  StatusCode resp <> 401%Z ->
  StatusCode resp <> 429%Z ->
  BodyErr resp = None ->
  (base.QueryBase W b query v inst into_inst s).1
    = Returns (Values_Set v "access_token" (base.token b),
               ((Unmarshal (into_inst (Body resp)) inst).1,
                FromLib <$> (Unmarshal (into_inst (Body resp)) inst).2)).
Proof.
  unfold query_request. intros Hparse Hanswer H400 H401 H429 Hbody.
  unfold_base; run. rewrite Hparse.
  destruct (base.debug b); simpl; rewrite Hanswer; simpl;
    unfold base.statusRateLimitExceeded, StatusUnauthorized, StatusBadRequest;
    repeat (case_decide; try done); simpl; rewrite Hbody;
    repeat (case_decide; try done);
    by destruct (Unmarshal _ _) as [i [e|]].
Qed.

Lemma QueryBase_decodes_other_statuses_witness :
  (base.QueryBase W_500 test_Base "geocoding/v5" ∅ 0 (fun _ => JsonValue 7) start).1
    = Returns (Values_Set ∅ "access_token" "pk.test", (7, None)).
Proof.
  apply (QueryBase_decodes_other_statuses W_500 test_Base "geocoding/v5" ∅ nat 0
           (fun _ => JsonValue 7) start
           {| StatusCode := 500; Body := "{}"; BodyErr := None |});
    first [reflexivity|discriminate].
Defined.

(** ** What the plain GET and POST make of a response *)

(** X5: SimpleGET and PostRequest never look at the status code of the
    response nor at the error of reading its body: once the round trip
    gave a response they return the bytes read and a nil error, for a 404
    or a 500 and for a body cut short alike. *)
Theorem GET_and_POST_ignore_status_and_read_errors
    (W : base.Env) (b : base.Base) (path : string) (data : option string)
    (s : State) (resp : Response) :
  let url := base.BaseURL +:+ "/" +:+ path +:+ "?access_token=" +:+ base.token b in
  base.url_Parse W url = None ->
  (base.RoundTrip W (trips s) (plain_request MethodGet url) = inr resp ->
   base.SimpleGET W b path s
     = (Returns (Some (Body resp), None),
        {| trips := S (trips s);
           trace := Sent (plain_request MethodGet url) :: trace s |})) /\
  (base.RoundTrip W (trips s) (post_request b path data) = inr resp ->
   base.PostRequest W b path data s
     = (Returns (Some (Body resp), None),
        {| trips := S (trips s);
           trace := Sent (post_request b path data) :: trace s |})).
Proof.
  intros url Hparse. unfold plain_request, post_request. fold url.
  split; intros Hanswer; unfold_base; run; fold url; rewrite Hparse.
  - simpl. by rewrite Hanswer.
  - destruct data; simpl in *; by rewrite Hanswer.
Qed.

Lemma GET_and_POST_ignore_status_and_read_errors_witness :
  (base.SimpleGET W_broken_500 test_Base "tilesets/v1/alice.roads/status" start).1
    = Returns (Some "", None) /\
  (base.PostRequest W_500 test_Base "tilesets/v1/alice.roads" None start).1
    = Returns (Some "{}", None).
Proof.
  split.
  - rewrite (proj1 (GET_and_POST_ignore_status_and_read_errors W_broken_500 test_Base
      "tilesets/v1/alice.roads/status" None start
      {| StatusCode := 500; Body := ""; BodyErr := Some unexpected_EOF |} eq_refl)
      eq_refl).
    reflexivity.
  - rewrite (proj2 (GET_and_POST_ignore_status_and_read_errors W_500 test_Base
      "tilesets/v1/alice.roads" None start
      {| StatusCode := 500; Body := "{}"; BodyErr := None |} eq_refl)
      eq_refl).
    reflexivity.
Defined.

(** X6: PostRequest drops the error of http.NewRequest. When the URL it
    formats does not parse, the request is nil and the call panics on it
    before anything is sent, with or without data; so do CreateTileset, once
    its file is open, and PublishTileset. When the URL parses PostRequest
    does not panic. *)
Theorem PostRequest_panics_on_unparsable_URL
    (W : base.Env) (D : tilesets.Decoders) (b : base.Base) (t : tilesets.Tileset)
    (path file : string) (data : option string) (s : State) :
  let url p tok := base.BaseURL +:+ "/" +:+ p +:+ "?access_token=" +:+ tok in
  let tok := base.token (tilesets.tbase t) in
  (base.url_Parse W (url path (base.token b)) <> None <->
   base.PostRequest W b path data s = (Panics nil_dereference, s)) /\
  (base.url_Parse W (url (tilesets.postURL t) tok) <> None ->
   forall contents, base.os_Open W file = inr contents ->
   tilesets.CreateTileset W t file s = (Panics nil_dereference, s)) /\
  (base.url_Parse W (url (tilesets.postURL t +:+ "/publish") tok) <> None ->
   tilesets.PublishTileset W D t s = (Panics nil_dereference, s)).
Proof.
  intros url tok. unfold url, tok. repeat split.
  - intros Hparse. unfold_base; run.
    destruct (base.url_Parse W _); [|done]. by destruct data.
  - unfold_base; run.
    destruct (base.url_Parse W _); [done|].
    destruct data; simpl; by destruct (base.RoundTrip W _ _).
  - intros Hparse contents Hopen. unfold_tilesets; unfold_base; run.
    rewrite Hopen. by destruct (base.url_Parse W _).
  - intros Hparse. unfold_tilesets; unfold_base; run.
    by destruct (base.url_Parse W _).
Qed.

Lemma PostRequest_panics_on_unparsable_URL_witness :
  base.PostRequest W_unparsable test_Base "tilesets/v1/%zz" None start
    = (Panics nil_dereference, start) /\
  tilesets.CreateTileset W_unparsable test_Tileset "recipe.json" start
    = (Panics nil_dereference, start).
Proof.
  pose proof (PostRequest_panics_on_unparsable_URL W_unparsable script_Decoders
    test_Base test_Tileset "tilesets/v1/%zz" "recipe.json" None start)
    as (Hpost & Hcreate & _).
  split.
  - apply Hpost. discriminate.
  - apply (Hcreate ltac:(discriminate) "{}"). reflexivity.
Defined.

(** ** Uploads *)

(** X7: when the file to upload cannot be opened, PostUploadFileRequest and
    UploadGeoJSON return the error of os.Open, and so does CreateTileset for
    its recipe file; nothing is sent and nothing is printed. *)
Theorem missing_file_sends_nothing
    (W : base.Env) (D : tilesets.Decoders) (b : base.Base) (t : tilesets.Tileset)
    (path file filetype : string) (s : State) (err : lib_error) :
  base.os_Open W file = inl err ->
  base.PostUploadFileRequest W b path file filetype s
    = (Returns (None, Some (FromLib err)), s) /\
  tilesets.UploadGeoJSON W D t file s = (Returns (None, Some (FromLib err)), s) /\
  tilesets.CreateTileset W t file s = (Returns (None, Some (FromLib err)), s).
Proof.
  intros Hopen. repeat split; unfold_tilesets; unfold_base; run; by rewrite Hopen.
Qed.

Lemma missing_file_sends_nothing_witness :
  tilesets.UploadGeoJSON W_ok script_Decoders test_Tileset "missing.json" start
    = (Returns (None, Some (FromLib no_such_file)), start) /\
  tilesets.CreateTileset W_ok test_Tileset "missing.json" start
    = (Returns (None, Some (FromLib no_such_file)), start).
Proof.
  pose proof (missing_file_sends_nothing W_ok script_Decoders test_Base test_Tileset
    "" "missing.json" "file" start no_such_file eq_refl) as (_ & Hupload & Hcreate).
  by split.
Defined.

(** X8: PostUploadFileRequest overwrites the error of client.Do with that of
    reading the body. When the round trip of an upload fails there is no
    response to read: the call panics after the request was sent, and
    UploadGeoJSON with it. *)
Theorem upload_panics_when_round_trip_fails
    (W : base.Env) (D : tilesets.Decoders) (b : base.Base) (t : tilesets.Tileset)
    (path file filetype contents : string) (s : State) (err : lib_error) :
  let sent r := {| trips := S (trips s); trace := Sent r :: trace s |} in
  let source :=
    "tilesets/v1/sources/" +:+ tilesets.username t +:+ "/" +:+ tilesets.tilesetID t in
  base.os_Open W file = inr contents ->
  (base.CreateFormFile W filetype (base.filepath_Base W file) = None ->
   base.url_Parse W (URL (upload_request W b path file filetype contents)) = None ->
   base.RoundTrip W (trips s) (upload_request W b path file filetype contents) = inl err ->
   base.PostUploadFileRequest W b path file filetype s
     = (Panics nil_dereference, sent (upload_request W b path file filetype contents))) /\
  (let r := upload_request W (tilesets.tbase t) source file "file" contents in
   base.CreateFormFile W "file" (base.filepath_Base W file) = None ->
   base.url_Parse W (URL r) = None ->
   base.RoundTrip W (trips s) r = inl err ->
   tilesets.UploadGeoJSON W D t file s = (Panics nil_dereference, sent r)).
Proof.
  intros sent source Hopen. unfold upload_request, sent, source. simpl.
  split; intros Hform Hparse Hanswer; unfold_tilesets; unfold_base; run;
    rewrite Hopen, Hform; simpl.
  - rewrite Hparse. simpl. by rewrite Hanswer.
  - change (tilesets.apiName +:+ "/" +:+ tilesets.apiVersion +:+ "/sources/"
              +:+ tilesets.username t +:+ "/" +:+ tilesets.tilesetID t)
      with ("tilesets/v1/sources/" +:+ tilesets.username t +:+ "/"
              +:+ tilesets.tilesetID t).
    rewrite Hparse. simpl. by rewrite Hanswer.
Qed.

Lemma upload_panics_when_round_trip_fails_witness :
  (tilesets.UploadGeoJSON W_refused script_Decoders test_Tileset "roads.ldgeojson"
     start).1 = Panics nil_dereference.
Proof.
  by rewrite (proj2 (upload_panics_when_round_trip_fails W_refused script_Decoders
    test_Base test_Tileset "" "roads.ldgeojson" "file" "{}" start connection_refused
    eq_refl) eq_refl eq_refl eq_refl).
Defined.

(** X9: an upload answered with status 200: when the body was read to the
    end and decodes without error, UploadGeoJSON returns the decoded
    response after one request, having printed the body once; when the read
    of the body failed it returns that error and prints nothing. *)
Theorem UploadGeoJSON_on_status_200
    (W : base.Env) (D : tilesets.Decoders) (t : tilesets.Tileset)
    (file contents : string) (s : State) (resp : Response) :
  let source :=
    "tilesets/v1/sources/" +:+ tilesets.username t +:+ "/" +:+ tilesets.tilesetID t in
  let r := upload_request W (tilesets.tbase t) source file "file" contents in
  let decoded :=
    Unmarshal (tilesets.json_UploadResponse D (Body resp)) tilesets.zero_UploadResponse in
  base.os_Open W file = inr contents ->
  base.CreateFormFile W "file" (base.filepath_Base W file) = None ->
  base.url_Parse W (URL r) = None ->
  base.RoundTrip W (trips s) r = inr resp ->
  StatusCode resp = 200%Z ->
  (BodyErr resp = None -> decoded.2 = None ->
   tilesets.UploadGeoJSON W D t file s
     = (Returns (Some decoded.1, None),
        {| trips := S (trips s);
           trace := Printed (Body resp +:+ newline) :: Sent r :: trace s |})) /\
  (forall err, BodyErr resp = Some err ->
   tilesets.UploadGeoJSON W D t file s
     = (Returns (None, Some (FromLib err)),
        {| trips := S (trips s); trace := Sent r :: trace s |})).
Proof.
  intros source r decoded Hopen Hform Hparse Hanswer Hstatus.
  unfold decoded, r, source, upload_request in *. simpl in *.
  split; [intros Hbody Hjson|intros err Hbody];
    unfold_tilesets; unfold_base; run; rewrite Hopen, Hform; simpl;
    change (tilesets.apiName +:+ "/" +:+ tilesets.apiVersion +:+ "/sources/"
              +:+ tilesets.username t +:+ "/" +:+ tilesets.tilesetID t)
      with ("tilesets/v1/sources/" +:+ tilesets.username t +:+ "/"
              +:+ tilesets.tilesetID t);
    rewrite Hparse; simpl; rewrite Hanswer; simpl; rewrite Hstatus, Hbody;
    unfold StatusOK; (case_decide; [done|]); simpl.
  - destruct (Unmarshal _ _) as [u [e|]]; simpl in *; by simplify_eq.
  - reflexivity.
Qed.

Lemma UploadGeoJSON_on_status_200_witness :
  (tilesets.UploadGeoJSON W_ok script_Decoders test_Tileset "roads.ldgeojson" start).1
    = Returns (Some tilesets.zero_UploadResponse, None) /\
  (tilesets.UploadGeoJSON W_broken_200 script_Decoders test_Tileset "roads.ldgeojson"
     start).1 = Returns (None, Some (FromLib unexpected_EOF)).
Proof.
  split.
  - by rewrite (proj1 (UploadGeoJSON_on_status_200 W_ok script_Decoders test_Tileset
      "roads.ldgeojson" "{}" start {| StatusCode := 200; Body := "{}"; BodyErr := None |}
      eq_refl eq_refl eq_refl eq_refl eq_refl) eq_refl eq_refl).
  - by rewrite (proj2 (UploadGeoJSON_on_status_200 W_broken_200 script_Decoders
      test_Tileset "roads.ldgeojson" "{}" start
      {| StatusCode := 200; Body := ""; BodyErr := Some unexpected_EOF |}
      eq_refl eq_refl eq_refl eq_refl eq_refl) unexpected_EOF eq_refl).
Defined.

(** ** Status codes in the tileset client *)

Lemma turn_recode (f : Z -> Z) (W : base.Env) (D : tilesets.Decoders)
    (t : tilesets.Tileset) (s : State) :
  tilesets.CheckJobStatus_turn (recode f W) D t s = tilesets.CheckJobStatus_turn W D t s.
Proof.
  unfold_tilesets; unfold_base; run.
  destruct (base.url_Parse W _); [done|]. simpl.
  by destruct (base.RoundTrip W _ _).
Qed.

Lemma loop_recode (f : Z -> Z) (W : base.Env) (D : tilesets.Decoders)
    (t : tilesets.Tileset) (fuel : nat) : forall s,
  tilesets.CheckJobStatus_loop (recode f W) D fuel t s
    = tilesets.CheckJobStatus_loop W D fuel t s.
Proof.
  induction fuel as [|fuel IH]; intros s; [done|].
  simpl. unfold mbind, M_bind. rewrite turn_recode.
  destruct (tilesets.CheckJobStatus_turn W D t s) as [[[r|]| | |] s']; auto.
Qed.

(** X10: CreateTileset, PublishTileset and CheckJobStatus never look at the
    status code of a response: with every status code replaced by another
    they return the same, send the same and print the same. A 401 or a 500
    is to them what a 200 is. *)
Theorem tileset_calls_ignore_status_codes
    (f : Z -> Z) (W : base.Env) (D : tilesets.Decoders) (t : tilesets.Tileset)
    (file : string) (fuel : nat) (s : State) :
  tilesets.CreateTileset (recode f W) t file s = tilesets.CreateTileset W t file s /\
  tilesets.PublishTileset (recode f W) D t s = tilesets.PublishTileset W D t s /\
  tilesets.CheckJobStatus (recode f W) D fuel t s = tilesets.CheckJobStatus W D fuel t s.
Proof.
  repeat split.
  - unfold_tilesets; unfold_base; run.
    destruct (base.os_Open W file); [done|].
    destruct (base.url_Parse W _); [done|]. simpl.
    by destruct (base.RoundTrip W _ _).
  - unfold_tilesets; unfold_base; run.
    destruct (base.url_Parse W _); [done|]. simpl.
    by destruct (base.RoundTrip W _ _).
  - unfold tilesets.CheckJobStatus; run. apply loop_recode.
Qed.

(** An error answer of the API comes back from CreateTileset as a response,
    with a nil error. *)
Example CreateTileset_returns_the_message_of_a_404 :
  (tilesets.CreateTileset W_not_found test_Tileset "recipe.json" start).1
    = Returns (Some {| base.Message := "Not Found" |}, None).
Proof. reflexivity. Qed.

(** ** One round trip per call *)







(** ** Debug output *)

(** X12: the debug flag changes only what is printed. With it on, QueryRequest
    and QueryBase return the same and send the same as with it off; with it
    off QueryRequest prints nothing, with it on it prints the URL before
    anything else. *)
Theorem debug_only_prints
    (W : base.Env) (b : base.Base) (flag : bool) (query : string) (v : Values)
    (Inst : Type) (inst : Inst) (into_inst : string -> json_outcome Inst)
    (s : State) :
  let quiet := {| base.token := base.token b; base.debug := false |} in
  let loud := base.SetDebug b flag in
  (base.QueryRequest W loud query v s).1 = (base.QueryRequest W quiet query v s).1 /\
  sent_by (base.QueryRequest W loud query v) s
    = sent_by (base.QueryRequest W quiet query v) s /\
  (base.QueryBase W loud query v inst into_inst s).1
    = (base.QueryBase W quiet query v inst into_inst s).1 /\
  sent_by (base.QueryBase W loud query v inst into_inst) s
    = sent_by (base.QueryBase W quiet query v inst into_inst) s /\
  printed_by (base.QueryRequest W quiet query v) s = [] /\
  head (printed_by (base.QueryRequest W loud query v) s)
    = Some ("URL: " +:+ base.BaseURL +:+ "/" +:+ query +:+ newline).
Proof.
  intros quiet loud. unfold quiet, loud, base.SetDebug, sent_by, printed_by.
  repeat split; unfold_base; run;
    repeat (case_match; simplify_eq/=); solve_added; done.
Qed.

(** ** Results and errors *)

(** X13: SimpleGET, PostRequest, PostUploadFileRequest, QueryRequest and
    UploadGeoJSON return either a value and a nil error or a nil value and
    an error, never both and never neither. *)
Theorem value_or_error
    (W : base.Env) (D : tilesets.Decoders) (b : base.Base) (t : tilesets.Tileset)
    (path file filetype : string) (data : option string) (v : Values) (s : State) :
  (forall r e, (base.SimpleGET W b path s).1 = Returns (r, e) ->
               (r = None <-> e <> None)) /\
  (forall r e, (base.PostRequest W b path data s).1 = Returns (r, e) ->
               (r = None <-> e <> None)) /\
  (forall r e, (base.PostUploadFileRequest W b path file filetype s).1 = Returns (r, e) ->
               (r = None <-> e <> None)) /\
  (forall w r e, (base.QueryRequest W b path v s).1 = Returns (w, (r, e)) ->
                 (r = None <-> e <> None)) /\
  (forall r e, (tilesets.UploadGeoJSON W D t file s).1 = Returns (r, e) ->
               (r = None <-> e <> None)).
Proof.
  repeat split; unfold_tilesets; unfold_base; run;
    repeat (case_match; simplify_eq/=); intros; by simplify_eq/=.
Qed.

Lemma value_or_error_witness :
  (base.SimpleGET W_refused test_Base "tilesets/v1" start).1
    = Returns (None, Some (FromLib connection_refused)) /\
  ((None : option string) = None <-> Some (FromLib connection_refused) <> None).
Proof.
  split; [reflexivity|].
  exact (proj1 (value_or_error W_refused script_Decoders test_Base test_Tileset
    "tilesets/v1" "" "" None ∅ start) None (Some (FromLib connection_refused)) eq_refl).
Defined.

(** ** What the requests carry *)



Example Query_request :
  (fun r => (URL r, RawQuery r)) <$>
    sent_by (base.Query W_ok test_Base "geocoding" "v5" "mapbox.places" "Paris.json"
               {[ "limit" := ["1"] ]} tt (fun _ => JsonNull)) start
  = [("https://api.mapbox.com/geocoding/v5/mapbox.places/Paris.json",
      Some "access_token=pk.test&limit=1")].
Proof. vm_compute. reflexivity. Qed.

(** ** Tokens that need no escaping *)

Lemma QueryEscape_unreserved (s : string) : unreserved s = true -> QueryEscape s = s.
Proof.
  induction s as [|c s IH]; [done|]. simpl.
  destruct (shouldEscape c); [done|]. simpl. intros H. by rewrite IH.
Qed.

(** X16: a token made of letters, digits and the marks - _ . ~ only is sent
    by QueryRequest as it is: the query of the request has the pair
    access_token=<token>, the text that SimpleGET, PostRequest and
    PostUploadFileRequest put at the end of their URLs. *)
Theorem unreserved_token_is_sent_verbatim
    (W : base.Env) (b : base.Base) (query : string) (v : Values) (s : State) :
  unreserved (base.token b) = true ->
  Forall (fun r => exists q, RawQuery r = Some q /\
                             has_pair q ("access_token=" +:+ base.token b))
    (sent_by (base.QueryRequest W b query v) s).
Proof.
  intros Hsafe.
  pose proof (Encode_has_token v (base.token b)) as Hpair.
  rewrite (QueryEscape_unreserved _ Hsafe) in Hpair.
  unfold sent_by; unfold_base; run.
  repeat (case_match; simplify_eq/=); solve_added; forall_list; eauto.
Qed.

Lemma unreserved_token_is_sent_verbatim_witness :
  Forall (fun r => exists q, RawQuery r = Some q /\ has_pair q "access_token=pk.test")
    (sent_by (base.QueryRequest W_ok test_Base "geocoding/v5" ∅) start) /\
  sent_by (base.QueryRequest W_ok test_Base "geocoding/v5" ∅) start <> [].
Proof.
  split.
  - exact (unreserved_token_is_sent_verbatim W_ok test_Base "geocoding/v5" ∅ start
             eq_refl).
  - discriminate.
Defined.

(** A token with other characters is escaped in the query of QueryRequest and
    is not in the URLs of the other three. *)
Example reserved_token_is_escaped_only_by_QueryRequest :
  RawQuery <$> sent_by (base.QueryRequest W_ok
                          {| base.token := "a b&c"; base.debug := false |} "x" ∅) start
    = [Some "access_token=a+b%26c"] /\
  URL <$> sent_by (base.SimpleGET W_ok
                     {| base.token := "a b&c"; base.debug := false |} "x") start
    = ["https://api.mapbox.com/x?access_token=a b&c"].
Proof. vm_compute. by split. Qed.

(** ** Endpoints tell tilesets apart *)

Lemma append_nil (s : string) : "" +:+ s = s.
Proof. reflexivity. Qed.

Lemma append_String (c : ascii) (a s : string) : String c a +:+ s = String c (a +:+ s).
Proof. reflexivity. Qed.

Lemma dot_splits_once (u1 u2 i1 i2 : string) :
  has_char "." u1 = false -> has_char "." u2 = false ->
  u1 +:+ "." +:+ i1 = u2 +:+ "." +:+ i2 -> u1 = u2 /\ i1 = i2.
Proof.
  revert u2. induction u1 as [|c1 u1 IH]; intros [|c2 u2] H1 H2 E;
    rewrite ?append_String, ?append_nil in E.
  - by injection E as ->.
  - injection E as <- _. simpl in H2. done.
  - injection E as -> _. simpl in H1. done.
  - injection E as -> E. simpl in H1, H2.
    apply orb_false_elim in H1 as [_ H1]. apply orb_false_elim in H2 as [_ H2].
    by destruct (IH u2 H1 H2 E) as [-> ->].
Qed.

(** X17: for usernames without a dot, two tilesets have the same postURL only
    if they have the same username and the same tilesetID. *)
Theorem postURL_tells_tilesets_apart (t1 t2 : tilesets.Tileset) :
  has_char "." (tilesets.username t1) = false ->
  has_char "." (tilesets.username t2) = false ->
  tilesets.postURL t1 = tilesets.postURL t2 ->
  tilesets.username t1 = tilesets.username t2 /\
  tilesets.tilesetID t1 = tilesets.tilesetID t2.
Proof.
  intros H1 H2 E. unfold tilesets.postURL in E.
  apply (dot_splits_once _ _ _ _ H1 H2).
  unfold tilesets.apiName, tilesets.apiVersion in E.
  rewrite ?append_String, ?append_nil in E. by simplify_eq.
Qed.

Lemma postURL_tells_tilesets_apart_witness :
  tilesets.username test_Tileset = "alice" /\ tilesets.tilesetID test_Tileset = "roads".
Proof.
  exact (postURL_tells_tilesets_apart test_Tileset
           (tilesets.SetTileset (tilesets.NewTileset test_Base) "alice" "roads")
           eq_refl eq_refl eq_refl).
Defined.

(** With a dot in the username two tilesets can share their endpoint. *)
Example postURL_collision :
  tilesets.postURL (tilesets.SetTileset test_Tileset "a.b" "c")
    = tilesets.postURL (tilesets.SetTileset test_Tileset "a" "b.c").
Proof. reflexivity. Qed.

(** ** The last line of CheckJobStatus *)

Lemma turn_job_done (W : base.Env) (D : tilesets.Decoders) (t : tilesets.Tileset)
    (s : State) (status : string) :
  observe W D t (trips s) = JobStatus status ->
  status = "failed" \/ status = "success" ->
  tilesets.CheckJobStatus_turn W D t s
    = (Returns (Some None),
       {| trips := S (trips s);
          trace := Printed ((if decide (status = "failed") then "Job failed"
                             else "Job complete") +:+ newline)
                     :: Sent (status_request t) :: trace s |}).
Proof.
  unfold observe, status_request, plain_request.
  unfold_tilesets; unfold_base; run.
  repeat (case_match; simplify_eq/=); intros Hobs Hst; simplify_eq/=;
    try done; naive_solver.
Qed.

Lemma loop_last_line (W : base.Env) (D : tilesets.Decoders) (t : tilesets.Tileset)
    (status : string) (k : nat) : forall s fuel,
  (forall i, i < k -> terminal (observe W D t (trips s + i)) = false) ->
  observe W D t (trips s + k) = JobStatus status ->
  status = "failed" \/ status = "success" ->
  k < fuel ->
  exists s' rest,
    tilesets.CheckJobStatus_loop W D fuel t s = (Returns None, s') /\
    trace s' = Printed ((if decide (status = "failed") then "Job failed"
                         else "Job complete") +:+ newline) :: rest ++ trace s.
Proof.
  induction k as [|k IH]; intros s [|fuel] Hlow Hk Hst Hfuel; try lia.
  - rewrite Nat.add_0_r in Hk. simpl. unfold mbind, M_bind.
    rewrite (turn_job_done W D t s status Hk Hst). simpl.
    eexists _, [_]. by split.
  - destruct (turn_continue W D t s) as (st0 & _ & E).
    { specialize (Hlow 0 ltac:(lia)). by rewrite Nat.add_0_r in Hlow. }
    simpl. unfold mbind, M_bind. rewrite E.
    set (s1 := {| trips := S (trips s);
                  trace := Slept (5 * time_Second) :: Printed (st0 +:+ newline)
                             :: Sent (status_request t) :: trace s |}).
    destruct (IH s1 fuel) as (s' & rest & E' & T); [| |done|lia|].
    { intros i Hi. simpl. specialize (Hlow (S i) ltac:(lia)).
      by rewrite Nat.add_succ_r in Hlow. }
    { simpl. by rewrite Nat.add_succ_r in Hk. }
    exists s', (rest ++ [Slept (5 * time_Second); Printed (st0 +:+ newline);
                        Sent (status_request t)]).
    split; [done|]. rewrite T. simpl. by rewrite <- app_assoc.
Qed.

(** X18: CheckJobStatus returns nil for a job that failed as for a job that
    succeeded; the two differ only in the last line printed, "Job failed" or
    "Job complete". The first line printed is always the one that announces
    the wait. *)
Theorem CheckJobStatus_tells_failure_only_in_print
    (W : base.Env) (D : tilesets.Decoders) (t : tilesets.Tileset) (s : State)
    (status : string) (k fuel : nat) :
  (forall i, i < k -> terminal (observe W D t (trips s + i)) = false) ->
  observe W D t (trips s + k) = JobStatus status ->
  status = "failed" \/ status = "success" ->
  k < fuel ->
  (tilesets.CheckJobStatus W D fuel t s).1 = Returns None /\
  head (printed_by (tilesets.CheckJobStatus W D fuel t) s) = Some hello_line /\
  last (printed_by (tilesets.CheckJobStatus W D fuel t) s)
    = Some ((if decide (status = "failed") then "Job failed" else "Job complete")
              +:+ newline).
Proof.
  intros Hlow Hk Hst Hfuel.
  set (s0 := {| trips := trips s; trace := Printed hello_line :: trace s |}).
  destruct (loop_last_line W D t status k s0 fuel Hlow Hk Hst Hfuel)
    as (s' & rest & E & T).
  assert (Hrun : tilesets.CheckJobStatus W D fuel t s = (Returns None, s'))
    by exact E.
  unfold printed_by. rewrite Hrun. simpl. split; [done|].
  rewrite (added_app s s' (Printed ((if decide (status = "failed") then "Job failed"
             else "Job complete") +:+ newline) :: rest ++ [Printed hello_line])).
  - unfold prints. simpl. rewrite omap_app. simpl.
    rewrite rev_app_distr. simpl. split; [done|].
    by rewrite app_comm_cons, last_snoc.
  - rewrite T. simpl. by rewrite <- app_assoc.
Qed.

Lemma CheckJobStatus_tells_failure_only_in_print_witness :
  (tilesets.CheckJobStatus W_two_naps script_Decoders 5 test_Tileset start).1
    = Returns None /\
  last (printed_by (tilesets.CheckJobStatus W_two_naps script_Decoders 5 test_Tileset)
          start) = Some ("Job complete" +:+ newline).
Proof.
  destruct (CheckJobStatus_tells_failure_only_in_print W_two_naps script_Decoders
              test_Tileset start "success" 2 5) as (E & _ & L).
  - intros [|[|i]] Hi; [reflexivity..|lia].
  - reflexivity.
  - by right.
  - lia.
  - by split.
Defined.

(** ** What reaches the caller of QueryBase and UploadGeoJSON *)

(** X19: QueryBase touches [inst] only by decoding the body of a response
    whose status is none of 400, 401 and 429 and whose body was read to the
    end; on every other path it returns with [inst] as the caller gave it. *)
Theorem QueryBase_changes_inst_only_by_decoding
    (W : base.Env) (b : base.Base) (query : string) (v : Values)
    (Inst : Type) (inst : Inst) (into_inst : string -> json_outcome Inst)
    (s : State) (w : Values) (i : Inst) (e : option error) :
  (base.QueryBase W b query v inst into_inst s).1 = Returns (w, (i, e)) ->
  i = inst \/
  exists resp,
    base.RoundTrip W (trips s) (query_request b query v) = inr resp /\
    StatusCode resp <> 400%Z /\ StatusCode resp <> 401%Z /\
    StatusCode resp <> 429%Z /\ BodyErr resp = None /\
    i = (Unmarshal (into_inst (Body resp)) inst).1.
Proof.
  unfold query_request. unfold_base; run.
  unfold base.statusRateLimitExceeded, StatusUnauthorized, StatusBadRequest.
  repeat (case_match; simplify_eq/=); intros; simplify_eq/=; auto;
    right; eexists; (split; [eassumption|]);
    repeat (split; [done|]);
    match goal with H : Unmarshal _ _ = _ |- _ => by rewrite H end.
Qed.

Lemma QueryBase_changes_inst_only_by_decoding_witness :
  (base.QueryBase W_bad_request test_Base "geocoding/v5" ∅ 0 (fun _ => JsonValue 7)
     start).1
    = Returns (Values_Set ∅ "access_token" "pk.test",
               (0, Some (errors_New "Bad Request (400) - no message"))) /\
  (0 = 0 \/
   exists resp,
     base.RoundTrip W_bad_request (trips start) (query_request test_Base "geocoding/v5" ∅)
       = inr resp /\
     StatusCode resp <> 400%Z /\ StatusCode resp <> 401%Z /\
     StatusCode resp <> 429%Z /\ BodyErr resp = None /\
     0 = (Unmarshal (JsonValue 7) 0).1).
Proof.
  split; [reflexivity|].
  exact (QueryBase_changes_inst_only_by_decoding W_bad_request test_Base "geocoding/v5"
           ∅ nat 0 (fun _ => JsonValue 7) start _ 0 _ eq_refl).
Defined.

(** X20: when an upload is answered with a status other than 200,
    UploadGeoJSON returns a nil response and the error made from the body,
    "api error: <message>" or "Bad Request (400) - no message", after the one
    request and without printing. *)
Theorem UploadGeoJSON_returns_the_message_of_the_API
    (W : base.Env) (D : tilesets.Decoders) (t : tilesets.Tileset)
    (file contents : string) (s : State) (resp : Response) :
  let source :=
    "tilesets/v1/sources/" +:+ tilesets.username t +:+ "/" +:+ tilesets.tilesetID t in
  let r := upload_request W (tilesets.tbase t) source file "file" contents in
  base.os_Open W file = inr contents ->
  base.CreateFormFile W "file" (base.filepath_Base W file) = None ->
  base.url_Parse W (URL r) = None ->
  base.RoundTrip W (trips s) r = inr resp ->
  StatusCode resp <> 200%Z ->
  tilesets.UploadGeoJSON W D t file s
    = (Returns (None, Some (message_error W (Body resp))),
       {| trips := S (trips s); trace := Sent r :: trace s |}).
Proof.
  intros source r Hopen Hform Hparse Hanswer Hstatus.
  unfold r, source, upload_request, message_error in *. simpl in *.
  unfold_tilesets; unfold_base; run; rewrite Hopen, Hform; simpl.
  change (tilesets.apiName +:+ "/" +:+ tilesets.apiVersion +:+ "/sources/"
            +:+ tilesets.username t +:+ "/" +:+ tilesets.tilesetID t)
    with ("tilesets/v1/sources/" +:+ tilesets.username t +:+ "/"
            +:+ tilesets.tilesetID t).
  rewrite Hparse; simpl; rewrite Hanswer; simpl.
  unfold StatusOK; (case_decide; [|done]); simpl.
  by destruct (Unmarshal _ _) as [m [e|]].
Qed.

Lemma UploadGeoJSON_returns_the_message_of_the_API_witness :
  (tilesets.UploadGeoJSON W_not_found script_Decoders test_Tileset "roads.ldgeojson"
     start).1 = Returns (None, Some (errors_New "api error: Not Found")).
Proof.
  by rewrite (UploadGeoJSON_returns_the_message_of_the_API W_not_found script_Decoders
    test_Tileset "roads.ldgeojson" "{}" start
    {| StatusCode := 404; Body := json_object "message" "Not Found"; BodyErr := None |}
    eq_refl eq_refl eq_refl eq_refl ltac:(discriminate)).
Defined.
